(** * Page-context bridge client: the service wrapper and the listener component

    A shallow embedding of

    - [PageContextValidator] and [PluginPageContextService]
      (src/services/pageContextService.ts), the wrapper around the
      host-supplied page-context bridge, and
    - the [PageContextListener] component (PageContextListener.tsx), which
      subscribes to the bridge, classifies every change and keeps the bounded
      change history,
    - the [PageContextDisplay] component (PageContextDisplay.tsx), which
      shows the three fields of the current page and refreshes them on
      demand,

    followed by the properties of the specification that concern them.

    Host values are untyped on the TypeScript side ([any]), so they are
    modelled by a small universe of JavaScript values with [typeof],
    truthiness, property lookup and strict equality.  A call that may throw
    returns an [Outcome].  The host side of the bridge (the list of callbacks
    it holds) is an explicit [Host] store threaded through every operation
    that registers or removes a callback.  Console output is not modelled. *)

From Stdlib Require Import String List Bool ZArith Arith Lia.
Import ListNotations.
Open Scope string_scope.

(* ================================================================== *)
(** ** JavaScript values *)
(* ================================================================== *)

Module Js.

#[local] Set Warnings "-register-all".

(** Objects and functions carry the identity that [===] compares.  Numbers
    are integers; NaN and fractions do not occur in a page context. *)
Inductive Value : Type :=
| Undefined
| Null
| Bool (b : bool)
| Num (n : Z)
| Str (s : string)
| Obj (ref : nat) (fields : list (string * Value))
| Fun (ref : nat).

(** [typeof v] *)
Definition typeof (v : Value) : string :=
  match v with
  | Undefined => "undefined"
  | Null => "object"
  | Bool _ => "boolean"
  | Num _ => "number"
  | Str _ => "string"
  | Obj _ _ => "object"
  | Fun _ => "function"
  end.

(** [!!v] *)
Definition truthy (v : Value) : bool :=
  match v with
  | Undefined | Null => false
  | Bool b => b
  | Num n => negb (Z.eqb n 0)
  | Str s => negb (String.eqb s "")
  | Obj _ _ | Fun _ => true
  end.

Fixpoint lookup (name : string) (fields : list (string * Value)) : Value :=
  match fields with
  | [] => Undefined
  | (k, v) :: rest => if String.eqb k name then v else lookup name rest
  end.

(** [v[name]] for a [v] that is neither [null] nor [undefined]; a primitive
    or a function has none of the page-context fields. *)
Definition get (v : Value) (name : string) : Value :=
  match v with
  | Obj _ fields => lookup name fields
  | _ => Undefined
  end.

(** [a === b] *)
Definition strictEq (a b : Value) : bool :=
  match a, b with
  | Undefined, Undefined => true
  | Null, Null => true
  | Bool x, Bool y => Bool.eqb x y
  | Num x, Num y => Z.eqb x y
  | Str x, Str y => String.eqb x y
  | Obj r _, Obj r' _ => Nat.eqb r r'
  | Fun r, Fun r' => Nat.eqb r r'
  | _, _ => false
  end.

(** [a !== b] *)
Definition strictNe (a b : Value) : bool := negb (strictEq a b).

(** What a [throw] carries. *)
Inductive Thrown : Type :=
| Error (message : string)
    (* new Error(message), or a TypeError of the engine *)
| ServiceError (message code : string)
    (* new PageContextServiceError(message, code) *)
| NonError (v : Value).
    (* any other thrown value *)

(** [error instanceof Error ? error.message : fallback] *)
Definition messageOr (fallback : string) (e : Thrown) : string :=
  match e with
  | Error m => m
  | ServiceError m _ => m
  | NonError _ => fallback
  end.

(** The TypeError raised by calling a property that is not a function (the
    wording is the engine's). *)
Definition notAFunction (name : string) : Thrown :=
  Error (name ++ " is not a function").

Inductive Outcome (A : Type) : Type :=
| Returned (a : A)
| Threw (e : Thrown).
Arguments Returned {A} a.
Arguments Threw {A} e.

(** [a || b] *)
Definition orElse (a b : Value) : Value := if truthy a then a else b.

(** A value spliced into a template literal.  A string goes in as it is; how
    any other value is rendered is the engine's business ([render]), and
    rendering an object may throw. *)
Definition template (render : Value -> Outcome string) (v : Value)
    : Outcome string :=
  match v with
  | Str s => Returned s
  | _ => render v
  end.

(** [s.includes(needle)] *)
Fixpoint includes (needle s : string) : bool :=
  if String.prefix needle s then true
  else match s with
       | EmptyString => false
       | String _ rest => includes needle rest
       end.

End Js.

(* ================================================================== *)
(** ** The host bridge *)
(* ================================================================== *)

Module Bridge.

(** A property of the bridge object: either something that is not callable
    or a function with the given behaviour. *)
Inductive Method (A : Type) : Type :=
| NotAFunction
| Function (behaviour : A).
Arguments NotAFunction {A}.
Arguments Function {A} behaviour.

(** What [onPageContextChange(callback)] does on the host side: it throws, or
    it stores the callback and returns an unsubscribe function; that
    function either removes the callback or throws [e] when called
    ([unsubscribeThrows = Some e]). *)
Inductive Subscribe : Type :=
| SubscribeThrows (e : Js.Thrown)
| Registers (unsubscribeThrows : option Js.Thrown).

Record t : Type := mk {
  getCurrentPageContext : Method (Js.Outcome Js.Value);
  onPageContextChange : Method Subscribe
}.

(** The unsubscribe function returned by the bridge. *)
Record Unsubscribe : Type := mkUnsubscribe {
  registration : nat;
  throws : option Js.Thrown
}.

(** The callbacks the host holds, oldest first; [C] is what a callback closes
    over. *)
Record Host (C : Type) : Type := mkHost {
  registered : list (nat * C);
  nextRegistration : nat
}.
Arguments mkHost {C} registered nextRegistration.
Arguments registered {C} h.
Arguments nextRegistration {C} h.

Definition register {C : Type} (unsubscribeThrows : option Js.Thrown)
    (callback : C)
    (h : Host C) : Unsubscribe * Host C :=
  (mkUnsubscribe (nextRegistration h) unsubscribeThrows,
   mkHost (registered h ++ [(nextRegistration h, callback)])
          (S (nextRegistration h))).

(** Calling the unsubscribe function: removes its callback (nothing to remove
    the second time), unless it throws. *)
Definition unsubscribe {C : Type} (u : Unsubscribe) (h : Host C)
    : Js.Outcome unit * Host C :=
  match throws u with
  | Some e => (Js.Threw e, h)
  | None =>
      (Js.Returned tt,
       mkHost (filter (fun r => negb (Nat.eqb (fst r) (registration u)))
                      (registered h))
              (nextRegistration h))
  end.

End Bridge.

(* ================================================================== *)
(** ** The service wrapper (pageContextService.ts) *)
(* ================================================================== *)

Module Service.

Import Js.

(** *** PageContextValidator *)

Definition requiredFields : list string := ["pageId"; "pageName"; "pageRoute"].

(** [validatePageContext]: an object whose three required fields are strings
    (of any length). *)
Definition validatePageContext (context : Value) : bool :=
  if negb (truthy context) || negb (String.eqb (typeof context) "object")
  then false
  else forallb (fun field => String.eqb (typeof (get context field)) "string")
               requiredFields.

Definition validateListener (listener : Value) : bool :=
  String.eqb (typeof listener) "function".

(** *** PluginPageContextService *)

(** [listeners] is the [Set] of tracked listeners in insertion order. *)
Record State : Type := mkState {
  pluginId : string;
  moduleId : string;
  serviceBridge : option Bridge.t;
  isConnected : bool;
  listeners : list Value;
  currentContext : Value;
  operationCount : nat
}.

(** [new PluginPageContextService(pluginId, moduleId)] *)
Definition create (pluginId moduleId : string) : State :=
  mkState pluginId moduleId None false [] Null 0.

Definition unavailable : Thrown :=
  ServiceError
    "PageContext Service not available. Ensure setServiceBridge() was called."
    "SERVICE_UNAVAILABLE".

(** [setServiceBridge(bridge)]; [None] is a [null] or [undefined] bridge. *)
Definition setServiceBridge (bridge : option Bridge.t) (s : State)
    : Outcome unit * State :=
  match bridge with
  | None =>
      (Threw (ServiceError "Service bridge cannot be null" "INVALID_BRIDGE"), s)
  | Some b =>
      let initial :=
        match Bridge.getCurrentPageContext b with
        | Bridge.Function (Returned context) => context
        | Bridge.Function (Threw _) => Null      (* caught: fallback *)
        | Bridge.NotAFunction => Null            (* TypeError, caught *)
        end in
      (Returned tt,
       mkState (pluginId s) (moduleId s) (Some b) true (listeners s) initial
               (operationCount s))
  end.

Definition isServiceAvailable (s : State) : bool :=
  match serviceBridge s with
  | Some _ => isConnected s
  | None => false
  end.

(** The call [this.serviceBridge!.getCurrentPageContext()]. *)
Definition callGetCurrent (s : State) : Outcome Value :=
  match serviceBridge s with
  | None => Threw (Error "Cannot read properties of undefined")
  | Some b =>
      match Bridge.getCurrentPageContext b with
      | Bridge.NotAFunction => Threw (notAFunction "getCurrentPageContext")
      | Bridge.Function o => o
      end
  end.

Definition getCurrentPageContext (s : State) : Outcome Value * State :=
  if negb (isServiceAvailable s) then (Threw unavailable, s)
  else
    let caught (e : Thrown) : Outcome Value * State :=
      match e with
      | ServiceError _ _ => (Threw e, s)
      | _ =>
          (Threw (ServiceError
                    ("Failed to get page context: "
                       ++ messageOr "Unknown error" e)
                    "GET_CONTEXT_FAILED"), s)
      end in
    match callGetCurrent s with
    | Threw e => caught e
    | Returned context =>
        if truthy context && negb (validatePageContext context) then
          caught (ServiceError "Invalid page context returned from service"
                               "INVALID_CONTEXT")
        else
          (Returned context,
           mkState (pluginId s) (moduleId s) (serviceBridge s) (isConnected s)
                   (listeners s) context (S (operationCount s)))
    end.

(** The service together with the host side of its bridge and the log of the
    calls made to external listeners, oldest first.  A host callback closes
    over the external listener it forwards to. *)
Record World : Type := mkWorld {
  service : State;
  host : Bridge.Host Value;
  invoked : list (Value * Value)
}.

Definition withService (s : State) (w : World) : World :=
  mkWorld s (host w) (invoked w).

Definition withListeners (ls : list Value) (s : State) : State :=
  mkState (pluginId s) (moduleId s) (serviceBridge s) (isConnected s) ls
          (currentContext s) (operationCount s).

Definition withCurrentContext (context : Value) (s : State) : State :=
  mkState (pluginId s) (moduleId s) (serviceBridge s) (isConnected s)
          (listeners s) context (operationCount s).

(** [Set.prototype.add] and [Set.prototype.delete] *)
Definition setAdd (v : Value) (ls : list Value) : list Value :=
  if existsb (strictEq v) ls then ls else ls ++ [v].

Definition setDelete (v : Value) (ls : list Value) : list Value :=
  filter (fun x => negb (strictEq v x)) ls.

(** The enhanced unsubscribe function returned by [onPageContextChange]. *)
Record Teardown : Type := mkTeardown {
  forListener : Value;
  bridgeUnsubscribe : Bridge.Unsubscribe
}.

(** The call [this.serviceBridge!.onPageContextChange(callback)]. *)
Definition callSubscribe (listener : Value) (w : World)
    : Outcome Bridge.Unsubscribe * Bridge.Host Value :=
  match serviceBridge (service w) with
  | None => (Threw (Error "Cannot read properties of undefined"), host w)
  | Some b =>
      match Bridge.onPageContextChange b with
      | Bridge.NotAFunction =>
          (Threw (notAFunction "onPageContextChange"), host w)
      | Bridge.Function (Bridge.SubscribeThrows e) => (Threw e, host w)
      | Bridge.Function (Bridge.Registers unsubscribeThrows) =>
          let '(u, h) := Bridge.register unsubscribeThrows listener (host w) in
          (Returned u, h)
      end
  end.

Definition onPageContextChange (listener : Value) (w : World)
    : Outcome Teardown * World :=
  if negb (isServiceAvailable (service w)) then (Threw unavailable, w)
  else if negb (validateListener listener) then
    (Threw (ServiceError "Invalid listener provided" "INVALID_LISTENER"), w)
  else
    let tracked :=
      withService
        (withListeners (setAdd listener (listeners (service w))) (service w))
        w in
    match callSubscribe listener tracked with
    | (Returned u, h) =>
        (Returned (mkTeardown listener u),
         mkWorld (service tracked) h (invoked tracked))
    | (Threw e, _) =>
        (Threw (ServiceError
                  ("Failed to add listener: " ++ messageOr "Unknown error" e)
                  "ADD_LISTENER_FAILED"),
         tracked)
    end.

(** Calling the function returned by [onPageContextChange]. *)
Definition teardown (t : Teardown) (w : World) : Outcome unit * World :=
  let s := withListeners (setDelete (forListener t) (listeners (service w)))
                         (service w) in
  let '(o, h) := Bridge.unsubscribe (bridgeUnsubscribe t) (host w) in
  (o, mkWorld s h (invoked w)).

(** The forwarding callback handed to the bridge: caches the payload as it
    comes and calls the original listener with it.  The listener is taken to
    return; the callback has no [catch] around the call, so a listener that
    throws would throw into the host. *)
Definition forward (listener context : Value) (w : World) : World :=
  mkWorld (withCurrentContext context (service w)) (host w)
          (invoked w ++ [(listener, context)]).

(** The host reports a change: every callback it holds is called with the
    payload, in registration order. *)
Definition notify (context : Value) (w : World) : World :=
  fold_left (fun acc r => forward (snd r) context acc)
            (Bridge.registered (host w)) w.

(** [removeAllListeners()] *)
Definition removeAllListeners (s : State) : State := withListeners [] s.

End Service.

(* ================================================================== *)
(** ** The listener component (PageContextListener.tsx) *)
(* ================================================================== *)

Module Listener.

Import Js.

Record PageContextChange : Type := mkChange {
  timestamp : string;
  previousContext : Value;
  newContext : Value;
  changeType : string
}.

Record State : Type := mkState {
  isServiceConnected : bool;
  isListening : bool;
  error : string;
  status : string;
  changeHistory : list PageContextChange;
  currentContext : Value
}.

(** The state set by the constructor. *)
Definition initialState : State :=
  mkState false false "" "Initializing PageContext Listener..." [] Null.

(** [props.services] and its [pageContext] entry; [None] is a missing (falsy)
    one. *)
Record Services : Type := mkServices { pageContext : option Bridge.t }.
Record Props : Type := mkProps { services : option Services }.

(** The component instance: its React state and the private field holding the
    unsubscribe function of the bridge. *)
Record Component : Type := mkComponent {
  state : State;
  pageContextUnsubscribe : option Bridge.Unsubscribe
}.

Definition mount : Component := mkComponent initialState None.

(** The two readings of the clock a notification makes:
    [new Date().toISOString()] and, of that instant,
    [toLocaleTimeString()]. *)
Record Clock : Type := mkClock { iso : string; localeTime : string }.

(** The change-type determination of the listener callback. *)
Definition determineChangeType (previous current : Value) : string :=
  if negb (truthy previous) then "Initial Load"
  else if strictNe (get previous "pageId") (get current "pageId")
  then "Page Navigation"
  else if strictNe (get previous "pageName") (get current "pageName")
  then "Page Name Change"
  else if strictNe (get previous "pageRoute") (get current "pageRoute")
  then "Route Change"
  else "Context Update".

(** [[record, ...history.slice(0, 9)]] *)
Definition pushChange (record : PageContextChange)
    (history : list PageContextChange) : list PageContextChange :=
  record :: firstn 9 history.

(** The callback given to [onPageContextChange], with its state update
    applied at once.  Objects are plain data here, so no property read in
    its [try] block throws and its [catch], which would only set [error], is
    not reached. *)
Definition handleChange (clock : Clock) (context : Value) (st : State)
    : State :=
  let previous := currentContext st in
  if negb (truthy context) || negb (String.eqb (typeof context) "object")
  then st
  else
    let kind := determineChangeType previous context in
    let record := mkChange (iso clock) previous context kind in
    mkState (isServiceConnected st) (isListening st) (error st)
            ("✅ Page context changed: " ++ kind ++ " at " ++ localeTime clock)
            (pushChange record (changeHistory st))
            context.

(** [cleanup()]: a throwing unsubscribe is logged and the field is kept. *)
Definition cleanup (c : Component) (h : Bridge.Host unit)
    : Component * Bridge.Host unit :=
  match pageContextUnsubscribe c with
  | None => (c, h)
  | Some u =>
      match Bridge.unsubscribe u h with
      | (Returned _, h') => (mkComponent (state c) None, h')
      | (Threw _, h') => (c, h')
      end
  end.

(** The [catch] of [initializePageContextListener]. *)
Definition initializationFailed (e : Thrown) (c : Component) : Component :=
  let errorMessage :=
    messageOr "PageContext Listener initialization failed" e in
  mkComponent
    (mkState false false errorMessage ("❌ " ++ errorMessage)
             (changeHistory (state c)) (currentContext (state c)))
    (pageContextUnsubscribe c).

(** [initializePageContextListener()]; [now] is the clock reading taken for
    the initial history entry. *)
Definition initializePageContextListener (now : string) (props : Props)
    (c0 : Component) (h0 : Bridge.Host unit) : Component * Bridge.Host unit :=
  let '(c, h) := cleanup c0 h0 in
  match services props with
  | None =>
      (initializationFailed (Error "Services not provided to component") c, h)
  | Some sv =>
      match pageContext sv with
      | None =>
          (mkComponent
             (mkState false false ""
                "⏳ Waiting for PageContext Service to become available..."
                [] (currentContext (state c)))
             (pageContextUnsubscribe c), h)
      | Some b =>
          match Bridge.onPageContextChange b, Bridge.getCurrentPageContext b with
          | Bridge.NotAFunction, _ =>
              (initializationFailed
                 (Error "PageContext Service missing onPageContextChange method")
                 c, h)
          | _, Bridge.NotAFunction =>
              (initializationFailed
                 (Error "PageContext Service missing getCurrentPageContext method")
                 c, h)
          | Bridge.Function subscribe, Bridge.Function retrieve =>
              let initialContext :=
                match retrieve with
                | Returned context => context
                | Threw _ => Null
                end in
              match subscribe with
              | Bridge.SubscribeThrows e => (initializationFailed e c, h)
              | Bridge.Registers unsubscribeThrows =>
                  let '(u, h') := Bridge.register unsubscribeThrows tt h in
                  let initialHistory :=
                    if truthy initialContext
                    then [mkChange now Null initialContext "Initial Load"]
                    else [] in
                  (mkComponent
                     (mkState true true ""
                        "✅ PageContext Listener active and monitoring changes"
                        initialHistory initialContext)
                     (Some u), h')
              end
          end
      end
  end.

(** [handleClearHistory()] *)
Definition handleClearHistory (st : State) : State :=
  mkState (isServiceConnected st) (isListening st) (error st)
          "🗑️ Change history cleared" [] (currentContext st).

(** The host reports a change: each callback the host holds for the component
    runs [handleChange], the update of one applied before the next runs.
    [Batched.notify] below is the same dispatch with the updates applied
    together afterwards. *)
Definition notify (clock : Clock) (context : Value) (c : Component)
    (h : Bridge.Host unit) : Component :=
  fold_left
    (fun acc _ =>
       mkComponent (handleChange clock context (state acc))
                   (pageContextUnsubscribe acc))
    (Bridge.registered h) c.

(** A run of notifications through the active subscription, oldest first,
    each applied before the next arrives. *)
Definition handleChanges (ns : list (Clock * Value)) (st : State) : State :=
  fold_left (fun acc n => handleChange (fst n) (snd n) acc) ns st.

(** A notification whose payload passes the guard of [handleChange]. *)
Definition accepted (n : Clock * Value) : Prop :=
  truthy (snd n) = true /\ typeof (snd n) = "object".

(** The change records such a run creates, oldest first, when every payload
    is accepted; [previous] is the context stored before the run. *)
Fixpoint records (ns : list (Clock * Value)) (previous : Value)
    : list PageContextChange :=
  match ns with
  | [] => []
  | (clock, context) :: rest =>
      mkChange (iso clock) previous context
               (determineChangeType previous context)
        :: records rest context
  end.

(** Everything that can happen to a mounted component: the lifecycle methods
    run [initializePageContextListener] or [cleanup], the host delivers a
    notification, the user clears the history. *)
Inductive step : Component * Bridge.Host unit ->
                 Component * Bridge.Host unit -> Prop :=
| step_initialize now props c h :
    step (c, h) (initializePageContextListener now props c h)
| step_notify clock context c h :
    step (c, h) (notify clock context c h, h)
| step_clear c h :
    step (c, h)
         (mkComponent (handleClearHistory (state c)) (pageContextUnsubscribe c),
          h)
| step_cleanup c h :
    step (c, h) (cleanup c h).

Inductive reachable : Component * Bridge.Host unit -> Prop :=
| reachable_mount : reachable (mount, Bridge.mkHost [] 0)
| reachable_step w w' : reachable w -> step w w' -> reachable w'.

(** [formatContextForDisplay(context)] *)
Definition formatContextForDisplay (render : Value -> Outcome string)
    (context : Value) : string :=
  if negb (truthy context) then "None"
  else
    match template render (orElse (get context "pageName") (Str "Unknown")),
          template render (orElse (get context "pageId") (Str "No ID")) with
    | Returned name, Returned id => name ++ " (" ++ id ++ ")"
    | _, _ => "Invalid Context"
    end.

(** [getStatusType(status)] *)
Definition getStatusType (status : string) : string :=
  if includes "❌" status then "status-error"
  else if includes "✅" status then "status-success"
  else if includes "⏳" status then "status-warning"
  else if includes "🗑️" status then "status-info"
  else "status-info".

(** The events of [step] as data, so that a life of the component is a list
    that can be run. *)
Inductive Op : Type :=
| Initialize (now : string) (props : Props)
| Notify (clock : Clock) (context : Value)
| ClearHistory
| Cleanup.

Definition apply (op : Op) (w : Component * Bridge.Host unit)
    : Component * Bridge.Host unit :=
  match op with
  | Initialize now props =>
      initializePageContextListener now props (fst w) (snd w)
  | Notify clock context => (notify clock context (fst w) (snd w), snd w)
  | ClearHistory =>
      (mkComponent (handleClearHistory (state (fst w)))
                   (pageContextUnsubscribe (fst w)),
       snd w)
  | Cleanup => cleanup (fst w) (snd w)
  end.

Definition run (ops : list Op) (w : Component * Bridge.Host unit)
    : Component * Bridge.Host unit :=
  fold_left (fun acc op => apply op acc) ops w.

(** A bridge whose unsubscribe functions do not throw, and an event that
    brings no other bridge. *)
Definition politeBridge (b : Bridge.t) : bool :=
  match Bridge.onPageContextChange b with
  | Bridge.Function (Bridge.Registers (Some _)) => false
  | _ => true
  end.

Definition politeOp (op : Op) : bool :=
  match op with
  | Initialize _ (mkProps (Some (mkServices (Some b)))) => politeBridge b
  | _ => true
  end.

(** The component holds the unsubscribe function of the one callback the
    host has for it, or none and the host has none. *)
Definition singleRegistration (w : Component * Bridge.Host unit) : Prop :=
  match pageContextUnsubscribe (fst w) with
  | Some u =>
      Bridge.throws u = None
      /\ Bridge.registered (snd w) = [(Bridge.registration u, tt)]
      /\ isListening (state (fst w)) = true
  | None => Bridge.registered (snd w) = []
  end.

(** Each record starts from the context the record before it ended on. *)
Fixpoint chained (history : list PageContextChange) : Prop :=
  match history with
  | newer :: (older :: _) as rest =>
      previousContext newer = newContext older /\ chained rest
  | _ => True
  end.

(** A record carries the type its two contexts determine. *)
Definition consistent (r : PageContextChange) : Prop :=
  changeType r = determineChangeType (previousContext r) (newContext r)
  /\ truthy (newContext r) = true.

Definition wellFormed (st : State) : Prop :=
  chained (changeHistory st)
  /\ Forall consistent (changeHistory st)
  /\ match changeHistory st with
     | newest :: _ => newContext newest = currentContext st
     | [] => True
     end.

End Listener.

(* ================================================================== *)
(** ** The change callback under batched state updates *)
(* ================================================================== *)

(** React may apply the updates several callbacks passed to [setState]
    together, after all of them ran.  Each callback then reads the same
    [this.state], while its updater is applied to the state the updaters
    before it produced. *)
Module Batched.

Import Js.

(** The updater the change callback passes to [setState]: it stores the new
    context, prepends the record to the history it is applied to and sets
    the status. *)
Record Update : Type := mkUpdate {
  record : Listener.PageContextChange;
  newStatus : string
}.

Definition applyUpdate (u : Update) (prevState : Listener.State)
    : Listener.State :=
  Listener.mkState (Listener.isServiceConnected prevState)
    (Listener.isListening prevState) (Listener.error prevState)
    (newStatus u)
    (Listener.pushChange (record u) (Listener.changeHistory prevState))
    (Listener.newContext (record u)).

(** [this.state] as the callbacks see it, and the updates queued so far. *)
Record Component : Type := mkComponent {
  rendered : Listener.State;
  queued : list Update
}.

(** The change callback: reads the previous context from [this.state] and
    queues its update. *)
Definition onChange (clock : Listener.Clock) (context : Value)
    (c : Component) : Component :=
  let previous := Listener.currentContext (rendered c) in
  if negb (truthy context) || negb (String.eqb (typeof context) "object")
  then c
  else
    let kind := Listener.determineChangeType previous context in
    mkComponent (rendered c)
      (queued c
         ++ [mkUpdate
               (Listener.mkChange (Listener.iso clock) previous context kind)
               ("✅ Page context changed: " ++ kind ++ " at "
                  ++ Listener.localeTime clock)]).

(** React applies the queue, oldest update first. *)
Definition flush (c : Component) : Listener.State :=
  fold_left (fun st u => applyUpdate u st) (queued c) (rendered c).

(** The callback runs that happen before the queue is applied, oldest
    first. *)
Definition tick (ns : list (Listener.Clock * Value)) (st : Listener.State)
    : Listener.State :=
  flush (fold_left (fun c n => onChange (fst n) (snd n) c) ns
                   (mkComponent st [])).

Definition ticks (batches : list (list (Listener.Clock * Value)))
    (st : Listener.State) : Listener.State :=
  fold_left (fun acc ns => tick ns acc) batches st.

(** The host reports a change to every callback it holds for the component,
    and the updates are applied afterwards. *)
Definition notify (clock : Listener.Clock) (context : Value)
    (st : Listener.State) (h : Bridge.Host unit) : Listener.State :=
  tick (map (fun _ => (clock, context)) (Bridge.registered h)) st.

(** What holds of a history however the updates were batched: every record
    carries the type its two contexts determine and ends on a truthy
    context, and the newest record ends on the stored context. *)
Definition sound (st : Listener.State) : Prop :=
  Forall Listener.consistent (Listener.changeHistory st)
  /\ match Listener.changeHistory st with
     | newest :: _ => Listener.newContext newest = Listener.currentContext st
     | [] => True
     end.

End Batched.

(* ================================================================== *)
(** ** The display component (PageContextDisplay.tsx) *)
(* ================================================================== *)

Module Display.

Import Js.

(** The three page fields are typed [string] but hold whatever the host
    sent, when that was truthy. *)
Record State : Type := mkState {
  pageId : Value;
  pageName : Value;
  pageRoute : Value;
  isServiceConnected : bool;
  error : string;
  status : string
}.

Definition initialState : State :=
  mkState (Str "") (Str "") (Str "") false ""
          "Initializing PageContext Service...".

Record Component : Type := mkComponent {
  state : State;
  pageContextUnsubscribe : option Bridge.Unsubscribe
}.

Definition mount : Component := mkComponent initialState None.

Definition cleanup (c : Component) (h : Bridge.Host unit)
    : Component * Bridge.Host unit :=
  match pageContextUnsubscribe c with
  | None => (c, h)
  | Some u =>
      match Bridge.unsubscribe u h with
      | (Returned _, h') => (mkComponent (state c) None, h')
      | (Threw _, h') => (c, h')
      end
  end.

(** The callback given to [onPageContextChange]; its [catch] is reached when
    rendering the page name into the status throws. *)
Definition handleChange (render : Value -> Outcome string) (context : Value)
    (st : State) : State :=
  if negb (truthy context) || negb (String.eqb (typeof context) "object")
  then st
  else
    match template render (orElse (get context "pageName") (Str "Unknown")) with
    | Returned name =>
        mkState (orElse (get context "pageId") (Str ""))
                (orElse (get context "pageName") (Str ""))
                (orElse (get context "pageRoute") (Str ""))
                (isServiceConnected st) (error st)
                ("✅ Page context updated: " ++ name)
    | Threw e =>
        mkState (pageId st) (pageName st) (pageRoute st)
                (isServiceConnected st)
                ("Page context listener error: "
                   ++ messageOr "Unknown error" e)
                (status st)
    end.

(** The [catch] of [initializePageContextService]. *)
Definition initializationFailed (e : Thrown) (c : Component) : Component :=
  let errorMessage :=
    messageOr "PageContext Service initialization failed" e in
  mkComponent
    (mkState (pageId (state c)) (pageName (state c)) (pageRoute (state c))
             false errorMessage ("❌ " ++ errorMessage))
    (pageContextUnsubscribe c).

(** [initializePageContextService()] *)
Definition initializePageContextService (props : Listener.Props)
    (c0 : Component) (h0 : Bridge.Host unit) : Component * Bridge.Host unit :=
  let '(c, h) := cleanup c0 h0 in
  let st := state c in
  match Listener.services props with
  | None =>
      (initializationFailed (Error "Services not provided to component") c, h)
  | Some sv =>
      match Listener.pageContext sv with
      | None =>
          (mkComponent
             (mkState (pageId st) (pageName st) (pageRoute st) false ""
                "⏳ Waiting for PageContext Service to become available...")
             (pageContextUnsubscribe c), h)
      | Some b =>
          match Bridge.getCurrentPageContext b, Bridge.onPageContextChange b with
          | Bridge.NotAFunction, _ =>
              (initializationFailed
                 (Error "PageContext Service missing getCurrentPageContext method")
                 c, h)
          | _, Bridge.NotAFunction =>
              (initializationFailed
                 (Error "PageContext Service missing onPageContextChange method")
                 c, h)
          | Bridge.Function (Threw contextError), _ =>
              (initializationFailed
                 (Error ("Failed to get current page context: "
                           ++ messageOr "Unknown error" contextError))
                 c, h)
          | Bridge.Function (Returned currentContext),
            Bridge.Function (Bridge.SubscribeThrows e) =>
              (initializationFailed e c, h)
          | Bridge.Function (Returned currentContext),
            Bridge.Function (Bridge.Registers unsubscribeThrows) =>
              let '(u, h') := Bridge.register unsubscribeThrows tt h in
              (mkComponent
                 (if truthy currentContext then
                    mkState (orElse (get currentContext "pageId") (Str ""))
                            (orElse (get currentContext "pageName") (Str ""))
                            (orElse (get currentContext "pageRoute") (Str ""))
                            true ""
                            "✅ PageContext Service connected and ready"
                  else
                    mkState (pageId st) (pageName st) (pageRoute st) true ""
                      "⚠️ PageContext Service connected but no context available")
                 (Some u), h')
          end
      end
  end.

(** [handleRefresh()] *)
Definition handleRefresh (render : Value -> Outcome string)
    (props : Listener.Props) (st : State) : State :=
  let failed (errorMsg : string) : State :=
    mkState (pageId st) (pageName st) (pageRoute st) (isServiceConnected st)
            errorMsg ("❌ " ++ errorMsg) in
  let caught (e : Thrown) : State :=
    failed (messageOr "Failed to refresh page context" e) in
  if negb (isServiceConnected st) then
    failed "Cannot refresh - PageContext Service not connected"
  else
    match match Listener.services props with
          | Some sv => Listener.pageContext sv
          | None => None
          end with
    | None => failed "PageContext Service no longer available"
    | Some b =>
        match Bridge.getCurrentPageContext b with
        | Bridge.NotAFunction => caught (notAFunction "getCurrentPageContext")
        | Bridge.Function (Threw e) => caught e
        | Bridge.Function (Returned currentContext) =>
            if truthy currentContext
               && String.eqb (typeof currentContext) "object"
            then
              match template render
                      (orElse (get currentContext "pageName") (Str "Unknown"))
              with
              | Returned name =>
                  mkState (orElse (get currentContext "pageId") (Str ""))
                          (orElse (get currentContext "pageName") (Str ""))
                          (orElse (get currentContext "pageRoute") (Str ""))
                          (isServiceConnected st) ""
                          ("✅ Page context refreshed - Current: " ++ name)
              | Threw e => caught e
              end
            else
              mkState (pageId st) (pageName st) (pageRoute st)
                      (isServiceConnected st) ""
                      "⚠️ Page context refreshed but no context available"
        end
    end.

(** [getStatusType(status)] *)
Definition getStatusType (status : string) : string :=
  if includes "❌" status then "status-error"
  else if includes "✅" status then "status-success"
  else if includes "⏳" status then "status-warning"
  else if includes "⚠️" status then "status-warning"
  else "status-info".

(** The host reports a change to the callbacks it holds for the component. *)
Definition notify (render : Value -> Outcome string) (context : Value)
    (c : Component) (h : Bridge.Host unit) : Component :=
  fold_left
    (fun acc _ =>
       mkComponent (handleChange render context (state acc))
                   (pageContextUnsubscribe acc))
    (Bridge.registered h) c.

(** What can happen to a mounted display component. *)
Inductive Op : Type :=
| Initialize (props : Listener.Props)
| Notify (render : Value -> Outcome string) (context : Value)
| Refresh (render : Value -> Outcome string) (props : Listener.Props)
| Cleanup.

Definition apply (op : Op) (w : Component * Bridge.Host unit)
    : Component * Bridge.Host unit :=
  match op with
  | Initialize props => initializePageContextService props (fst w) (snd w)
  | Notify render context => (notify render context (fst w) (snd w), snd w)
  | Refresh render props =>
      (mkComponent (handleRefresh render props (state (fst w)))
                   (pageContextUnsubscribe (fst w)),
       snd w)
  | Cleanup => cleanup (fst w) (snd w)
  end.

Definition run (ops : list Op) (w : Component * Bridge.Host unit)
    : Component * Bridge.Host unit :=
  fold_left (fun acc op => apply op acc) ops w.

(** A page field that can be shown: a truthy value, or the empty string the
    component puts in place of a falsy one. *)
Definition shown (v : Value) : Prop := truthy v = true \/ v = Str "".

Definition presentable (st : State) : Prop :=
  shown (pageId st) /\ shown (pageName st) /\ shown (pageRoute st).

End Display.

(* ================================================================== *)
(** ** The change-type determination as the developer guide lists it *)
(* ================================================================== *)

Module Guide.

Import Js.

(** The listing of the listener callback in the developer guide ("Step 3:
    Listening for Page Context Changes"): [pageId] first, then [pageRoute],
    then [pageName]. *)
Definition determineChangeType (previous current : Value) : string :=
  if negb (truthy previous) then "Initial Load"
  else if strictNe (get previous "pageId") (get current "pageId")
  then "Page Change"
  else if strictNe (get previous "pageRoute") (get current "pageRoute")
  then "Route Change"
  else if strictNe (get previous "pageName") (get current "pageName")
  then "Name Change"
  else "Context Update".

(** The listener's name for each label of the guide. *)
Definition listenerLabel (label : string) : string :=
  if String.eqb label "Page Change" then "Page Navigation"
  else if String.eqb label "Name Change" then "Page Name Change"
  else label.

End Guide.

(* ================================================================== *)
(** ** Concrete contexts, bridges and runs *)
(* ================================================================== *)

Module Sample.

Import Js.

Definition context (ref : nat) (pageId pageName pageRoute : string) : Value :=
  Obj ref [("pageId", Str pageId); ("pageName", Str pageName);
           ("pageRoute", Str pageRoute)].

Definition home : Value := context 1 "x" "Home" "/".
Definition otherPage : Value := context 2 "y" "Home" "/".
Definition about : Value := context 3 "x" "Home" "/about".
Definition renamedAndMoved : Value := context 4 "x" "Dashboard" "/about".
Definition emptyId : Value := context 5 "" "Home" "/".

Definition clock : Listener.Clock :=
  Listener.mkClock "2025-01-24T14:30:00.000Z" "2:30:00 PM".

(** A bridge with both methods, whose current context is [current]. *)
Definition bridge (current : Outcome Value) : Bridge.t :=
  Bridge.mk (Bridge.Function current)
            (Bridge.Function (Bridge.Registers None)).

Definition withoutSubscribe : Bridge.t :=
  Bridge.mk (Bridge.Function (Returned home)) Bridge.NotAFunction.

Definition withoutRetrieve : Bridge.t :=
  Bridge.mk Bridge.NotAFunction (Bridge.Function (Bridge.Registers None)).

Definition failingRetrieve : Bridge.t :=
  bridge (Threw (Error "host not ready")).

Definition props (b : Bridge.t) : Listener.Props :=
  Listener.mkProps (Some (Listener.mkServices (Some b))).

Definition noBridge : Listener.Props :=
  Listener.mkProps (Some (Listener.mkServices None)).

(** A listener component listening on [bridge (Returned home)]. *)
Definition listening : Listener.Component * Bridge.Host unit :=
  Listener.initializePageContextListener "2025-01-24T14:00:00.000Z"
    (props (bridge (Returned home))) Listener.mount (Bridge.mkHost [] 0).

(** A service connected to [bridge (Returned home)], nothing subscribed. *)
Definition connected : Service.World :=
  Service.mkWorld
    (snd (Service.setServiceBridge (Some (bridge (Returned home)))
                                   (Service.create "plugin" "module")))
    (Bridge.mkHost [] 0) [].

(** A connected service that cached [home] and whose bridge has no context
    to report any more. *)
Definition nowAbsent : Service.State :=
  Service.mkState "plugin" "module" (Some (bridge (Returned Null))) true []
                  home 0.

Definition firstListener : Value := Fun 10.
Definition secondListener : Value := Fun 11.

(** Fifteen notifications, pages [p1] to [p15]. *)
Definition page (n : nat) : Listener.Clock * Value :=
  (Listener.mkClock ("t" ++ String (Ascii.ascii_of_nat (64 + n)) "") "",
   Obj (100 + n)
       [("pageId", Str ("p" ++ String (Ascii.ascii_of_nat (64 + n)) ""));
        ("pageName", Str "Page"); ("pageRoute", Str "/page")]).

Definition fifteen : list (Listener.Clock * Value) := map page (seq 1 15).

End Sample.

(* ================================================================== *)
(** ** Properties *)
(* ================================================================== *)

Import Js.

(** *** Auxiliary facts *)

Lemma object_inversion (v : Value) :
  truthy v = true -> typeof v = "object" -> exists ref fields, v = Obj ref fields.
Proof.
  destruct v; simpl; intros Ht Ho; try discriminate.
  eauto.
Qed.

Lemma handleChange_rejects (clock : Listener.Clock) (payload : Value)
    (st : Listener.State) :
  truthy payload = false \/ typeof payload <> "object" ->
  Listener.handleChange clock payload st = st.
Proof.
  intros H. unfold Listener.handleChange.
  destruct H as [H | H].
  - rewrite H. reflexivity.
  - destruct (String.eqb_spec (typeof payload) "object") as [E | _].
    + contradiction.
    + rewrite orb_true_r. reflexivity.
Qed.

Lemma handleChange_object (clock : Listener.Clock) (ref : nat)
    (fields : list (string * Value)) (st : Listener.State) :
  Listener.handleChange clock (Obj ref fields) st =
  Listener.mkState (Listener.isServiceConnected st) (Listener.isListening st)
    (Listener.error st)
    ("✅ Page context changed: "
       ++ Listener.determineChangeType (Listener.currentContext st)
                                       (Obj ref fields)
       ++ " at " ++ Listener.localeTime clock)
    (Listener.mkChange (Listener.iso clock) (Listener.currentContext st)
       (Obj ref fields)
       (Listener.determineChangeType (Listener.currentContext st)
                                     (Obj ref fields))
       :: firstn 9 (Listener.changeHistory st))
    (Obj ref fields).
Proof. reflexivity. Qed.

Lemma listener_notify_rejects (clock : Listener.Clock) (payload : Value)
    (h : Bridge.Host unit) (c : Listener.Component) :
  truthy payload = false \/ typeof payload <> "object" ->
  Listener.notify clock payload c h = c.
Proof.
  intros H. unfold Listener.notify.
  induction (Bridge.registered h) as [| r rs IH]; simpl.
  - reflexivity.
  - rewrite (handleChange_rejects clock payload (Listener.state c) H).
    destruct c; simpl in *. exact IH.
Qed.

(** With one active subscription a notification is one run of the
    callback. *)
Lemma notify_single_subscription (clock : Listener.Clock) (payload : Value)
    (c : Listener.Component) (h : Bridge.Host unit) (id : nat) :
  Bridge.registered h = [(id, tt)] ->
  Listener.state (Listener.notify clock payload c h)
  = Listener.handleChange clock payload (Listener.state c).
Proof.
  intros E. unfold Listener.notify. rewrite E. reflexivity.
Qed.

(** Forwarding to a list of callbacks: the last one decides the cached
    context and every one of them reaches its listener. *)
Lemma service_forward_all (payload : Value) (rs : list (nat * Value))
    (w : Service.World) :
  let w' := fold_left (fun acc r => Service.forward (snd r) payload acc) rs w in
  Service.invoked w'
    = (Service.invoked w ++ map (fun r => (snd r, payload)) rs)%list
  /\ Service.host w' = Service.host w
  /\ (rs <> [] -> Service.currentContext (Service.service w') = payload)
  /\ Service.listeners (Service.service w')
      = Service.listeners (Service.service w).
Proof.
  revert w. induction rs as [| r rs IH]; intros w; simpl.
  - rewrite app_nil_r. repeat split; congruence.
  - destruct (IH (Service.forward (snd r) payload w)) as (Hi & Hh & Hc & Hl).
    simpl in *. rewrite Hi, Hh, Hl, <- app_assoc. simpl.
    repeat split; try reflexivity.
    intros _. destruct rs as [| r' rs'].
    + reflexivity.
    + apply Hc. discriminate.
Qed.

(** *** Malformed notification payloads *)

(** The service wrapper checks nothing: whatever the host reports is cached
    as the current context and handed to each subscribed listener. *)
Lemma service_forwards_every_payload (payload : Value) (w : Service.World)
    (id : nat) (listener : Value) :
  In (id, listener) (Bridge.registered (Service.host w)) ->
  Service.currentContext (Service.service (Service.notify payload w)) = payload
  /\ In (listener, payload) (Service.invoked (Service.notify payload w)).
Proof.
  intros Hin. unfold Service.notify.
  destruct (service_forward_all payload (Bridge.registered (Service.host w)) w)
    as (Hi & _ & Hc & _).
  split.
  - apply Hc. intros E. rewrite E in Hin. exact Hin.
  - rewrite Hi. apply in_or_app. right.
    apply (in_map (fun r => (snd r, payload)) _ (id, listener)). exact Hin.
Qed.

(** C1, as amended.  The listener component discards a notification payload
    that is falsy or not of type object: the component, hence the stored
    current context and the change history, stays exactly as it was.  (The
    component has no external listeners of its own.) *)
Theorem non_object_payload_dropped (clock : Listener.Clock) (payload : Value)
    (c : Listener.Component) (h : Bridge.Host unit) :
  truthy payload = false \/ typeof payload <> "object" ->
  Listener.notify clock payload c h = c
  /\ Listener.handleChange clock payload (Listener.state c) = Listener.state c.
Proof.
  intros H. split.
  - apply listener_notify_rejects. exact H.
  - apply handleChange_rejects. exact H.
Qed.

Lemma non_object_payload_dropped_witness :
  Listener.notify Sample.clock Null (fst Sample.listening) (snd Sample.listening)
    = fst Sample.listening
  /\ Listener.notify Sample.clock (Str "/about") (fst Sample.listening)
       (snd Sample.listening)
     = fst Sample.listening.
Proof.
  split.
  - apply (non_object_payload_dropped Sample.clock Null).
    left. reflexivity.
  - apply (non_object_payload_dropped Sample.clock (Str "/about")).
    right. discriminate.
Defined.

(** C1 as the specification states it fails: the payload with an empty
    [pageId] passes the validator, replaces the context stored by the
    listening component, adds a record to its history, and reaches the
    external listener subscribed through the service wrapper. *)
Lemma empty_id_payload_is_processed :
  Service.validatePageContext Sample.emptyId = true
  /\ (let st := Listener.state (fst Sample.listening) in
      let st' := Listener.state
                   (Listener.notify Sample.clock Sample.emptyId
                      (fst Sample.listening) (snd Sample.listening)) in
      Listener.currentContext st = Sample.home
      /\ Listener.currentContext st' = Sample.emptyId
      /\ Listener.currentContext st' <> Listener.currentContext st
      /\ length (Listener.changeHistory st) = 1
      /\ length (Listener.changeHistory st') = 2)
  /\ (let w := snd (Service.onPageContextChange Sample.firstListener
                                                Sample.connected) in
      let w' := Service.notify Sample.emptyId w in
      Service.invoked w = []
      /\ Service.invoked w' = [(Sample.firstListener, Sample.emptyId)]
      /\ Service.currentContext (Service.service w') = Sample.emptyId).
Proof.
  split; [reflexivity |]. split.
  - simpl. repeat split; try reflexivity. discriminate.
  - simpl. repeat split; reflexivity.
Qed.

(** *** Classification of a change *)

(** C2, at the input where the code departs from it.  With the same [pageId]
    and both [pageName] and [pageRoute] changed, the listener callback tests
    [pageName] before [pageRoute] and records a name change; the order of
    the developer guide (and of the specification) gives a route change. *)
Theorem name_is_tested_before_route :
  let st := Listener.state (fst Sample.listening) in
  Listener.currentContext st = Sample.home
  /\ map Listener.changeType
       (Listener.changeHistory
          (Listener.handleChange Sample.clock Sample.renamedAndMoved st))
     = ["Page Name Change"; "Initial Load"]
  /\ Listener.determineChangeType Sample.home Sample.renamedAndMoved
     = "Page Name Change"
  /\ Guide.determineChangeType Sample.home Sample.renamedAndMoved
     = "Route Change".
Proof. simpl. repeat split; reflexivity. Qed.

(** Where only one of the two fields changes, the order of the two tests does
    not matter: the listener agrees with the guide on a route-only change. *)
Lemma route_only_change :
  Listener.determineChangeType Sample.home Sample.about = "Route Change"
  /\ Guide.determineChangeType Sample.home Sample.about = "Route Change".
Proof. split; reflexivity. Qed.

(** C7.  When a previous context is stored and its [pageId] differs from the
    new one, the change is classified as a page navigation, whatever
    [pageName] and [pageRoute] are; the record prepended to the history
    carries that type. *)
Theorem page_id_is_tested_first (clock : Listener.Clock) (ref : nat)
    (fields : list (string * Value)) (st : Listener.State) :
  truthy (Listener.currentContext st) = true ->
  strictNe (get (Listener.currentContext st) "pageId")
           (get (Obj ref fields) "pageId") = true ->
  Listener.determineChangeType (Listener.currentContext st) (Obj ref fields)
    = "Page Navigation"
  /\ Listener.changeHistory (Listener.handleChange clock (Obj ref fields) st)
     = Listener.mkChange (Listener.iso clock) (Listener.currentContext st)
         (Obj ref fields) "Page Navigation"
         :: firstn 9 (Listener.changeHistory st).
Proof.
  intros Hprev Hid.
  assert (E : Listener.determineChangeType (Listener.currentContext st)
                (Obj ref fields) = "Page Navigation").
  { unfold Listener.determineChangeType. rewrite Hprev, Hid. reflexivity. }
  split; [exact E |].
  rewrite handleChange_object. simpl. rewrite E. reflexivity.
Qed.

Lemma page_id_is_tested_first_witness :
  Listener.determineChangeType Sample.home Sample.otherPage = "Page Navigation"
  /\ Listener.determineChangeType Sample.home
       (Sample.context 6 "y" "Dashboard" "/about") = "Page Navigation".
Proof.
  split.
  - apply (page_id_is_tested_first Sample.clock 2
             [("pageId", Str "y"); ("pageName", Str "Home");
              ("pageRoute", Str "/")]
             (Listener.state (fst Sample.listening)));
      reflexivity.
  - apply (page_id_is_tested_first Sample.clock 6
             [("pageId", Str "y"); ("pageName", Str "Dashboard");
              ("pageRoute", Str "/about")]
             (Listener.state (fst Sample.listening)));
      reflexivity.
Defined.

(** *** Attaching a bridge *)

(** C3, as amended.  Initialising the listener component while
    [services.pageContext] is missing is the waiting case, not an error: the
    component ends not connected and not listening, with an empty history
    and an empty error, and nothing is registered with the host.  The
    service wrapper is the other way round: [setServiceBridge] throws
    INVALID_BRIDGE for a missing bridge and leaves the service as it was. *)
Theorem no_bridge_is_waiting_for_listener_only :
  (forall now c h,
      let c' := fst (Listener.initializePageContextListener
                       now Sample.noBridge c h) in
      Listener.isServiceConnected (Listener.state c') = false
      /\ Listener.isListening (Listener.state c') = false
      /\ Listener.changeHistory (Listener.state c') = []
      /\ Listener.error (Listener.state c') = ""
      /\ Listener.initializePageContextListener now Sample.noBridge c h
         = (Listener.mkComponent (Listener.state c')
              (Listener.pageContextUnsubscribe (fst (Listener.cleanup c h))),
            snd (Listener.cleanup c h)))
  /\ (forall s,
        Service.setServiceBridge None s
        = (Threw (ServiceError "Service bridge cannot be null" "INVALID_BRIDGE"),
           s)).
Proof.
  split.
  - intros now c h. unfold Listener.initializePageContextListener.
    destruct (Listener.cleanup c h) as [c1 h1]. simpl.
    repeat split; reflexivity.
  - intros s. reflexivity.
Qed.

(** C3 as the specification states it fails on the service wrapper: a missing
    bridge is rejected with an error, and a service that was connected stays
    connected. *)
Lemma missing_bridge_is_rejected_by_service :
  Service.setServiceBridge None (Service.create "plugin" "module")
  = (Threw (ServiceError "Service bridge cannot be null" "INVALID_BRIDGE"),
     Service.create "plugin" "module")
  /\ Service.isConnected
       (snd (Service.setServiceBridge None
               (Service.service Sample.connected))) = true.
Proof. split; reflexivity. Qed.

(** C4, as amended.  The listener component checks both methods of the bridge,
    [onPageContextChange] first: when one is not a function it ends not
    connected and not listening, with the error naming the first missing
    method kept in its state (nothing is thrown to the caller) and nothing
    registered with the host.  The service wrapper checks neither: any
    bridge object connects it. *)
Theorem missing_method_is_reported_by_listener_only :
  (forall now b c h,
      Bridge.onPageContextChange b = Bridge.NotAFunction
      \/ Bridge.getCurrentPageContext b = Bridge.NotAFunction ->
      let c1 := fst (Listener.cleanup c h) in
      Listener.initializePageContextListener now (Sample.props b) c h
      = (Listener.initializationFailed
           (Error
              ("PageContext Service missing "
                 ++ match Bridge.onPageContextChange b with
                    | Bridge.NotAFunction => "onPageContextChange"
                    | Bridge.Function _ => "getCurrentPageContext"
                    end
                 ++ " method"))
           c1,
         snd (Listener.cleanup c h))
      /\ forall e,
           let st := Listener.state (Listener.initializationFailed e c1) in
           Listener.isServiceConnected st = false
           /\ Listener.isListening st = false
           /\ Listener.error st
              = messageOr "PageContext Listener initialization failed" e)
  /\ (forall b s,
        exists s',
          Service.setServiceBridge (Some b) s = (Returned tt, s')
          /\ Service.isConnected s' = true
          /\ Service.serviceBridge s' = Some b).
Proof.
  split.
  - intros now b c h H. simpl. split.
    + unfold Listener.initializePageContextListener.
      destruct (Listener.cleanup c h) as [c1 h1]. simpl.
      destruct (Bridge.onPageContextChange b) as [| sub].
      * reflexivity.
      * destruct H as [H | H]; [discriminate |].
        rewrite H. reflexivity.
    + intros e. repeat split; reflexivity.
  - intros b s. eexists. repeat split; reflexivity.
Qed.

Lemma missing_method_is_reported_by_listener_only_witness :
  Listener.error
    (Listener.state
       (fst (Listener.initializePageContextListener "now"
               (Sample.props Sample.withoutSubscribe) Listener.mount
               (Bridge.mkHost [] 0))))
  = "PageContext Service missing onPageContextChange method"
  /\ Listener.error
       (Listener.state
          (fst (Listener.initializePageContextListener "now"
                  (Sample.props Sample.withoutRetrieve) Listener.mount
                  (Bridge.mkHost [] 0))))
     = "PageContext Service missing getCurrentPageContext method".
Proof.
  destruct missing_method_is_reported_by_listener_only as (H & _).
  split.
  - destruct (H "now" Sample.withoutSubscribe Listener.mount
                (Bridge.mkHost [] 0)) as (E & _).
    + left. reflexivity.
    + rewrite E. reflexivity.
  - destruct (H "now" Sample.withoutRetrieve Listener.mount
                (Bridge.mkHost [] 0)) as (E & _).
    + right. reflexivity.
    + rewrite E. reflexivity.
Defined.

(** C4 as the specification states it fails on the service wrapper: a bridge
    without [onPageContextChange] is accepted and the service is connected;
    the missing method only surfaces when a listener is added. *)
Lemma bridge_without_subscribe_connects_service :
  Service.setServiceBridge (Some Sample.withoutSubscribe)
                           (Service.create "plugin" "module")
  = (Returned tt,
     Service.mkState "plugin" "module" (Some Sample.withoutSubscribe) true []
                     Sample.home 0)
  /\ Service.isServiceAvailable
       (snd (Service.setServiceBridge (Some Sample.withoutSubscribe)
                                      (Service.create "plugin" "module")))
     = true.
Proof. split; reflexivity. Qed.

(** C5.  A bridge whose [getCurrentPageContext] throws while it is attached
    is attached all the same.  [setServiceBridge] returns normally with the
    service connected and no current context.  The listener component treats
    the failure exactly as a bridge that reports no context, and where the
    subscription is registered it ends connected and listening with no
    current context, an empty history and no error. *)
Theorem retrieval_failure_is_absorbed :
  (forall b e s,
      Bridge.getCurrentPageContext b = Bridge.Function (Threw e) ->
      Service.setServiceBridge (Some b) s
      = (Returned tt,
         Service.mkState (Service.pluginId s) (Service.moduleId s) (Some b)
           true (Service.listeners s) Null (Service.operationCount s)))
  /\ (forall now b e c h,
        Bridge.getCurrentPageContext b = Bridge.Function (Threw e) ->
        Listener.initializePageContextListener now (Sample.props b) c h
        = Listener.initializePageContextListener now
            (Sample.props (Bridge.mk (Bridge.Function (Returned Null))
                                     (Bridge.onPageContextChange b)))
            c h)
  /\ (forall now b e unsubscribeThrows c h,
        Bridge.getCurrentPageContext b = Bridge.Function (Threw e) ->
        Bridge.onPageContextChange b
          = Bridge.Function (Bridge.Registers unsubscribeThrows) ->
        let st := Listener.state
                    (fst (Listener.initializePageContextListener
                            now (Sample.props b) c h)) in
        Listener.isServiceConnected st = true
        /\ Listener.isListening st = true
        /\ Listener.currentContext st = Null
        /\ Listener.changeHistory st = []
        /\ Listener.error st = "").
Proof.
  split; [| split].
  - intros b e s H. unfold Service.setServiceBridge. rewrite H. reflexivity.
  - intros now b e c h H. unfold Listener.initializePageContextListener.
    destruct (Listener.cleanup c h) as [c1 h1]. simpl. rewrite H.
    destruct (Bridge.onPageContextChange b) as [| [e' | ut]]; reflexivity.
  - intros now b e ut c h Hget Hsub.
    unfold Listener.initializePageContextListener.
    destruct (Listener.cleanup c h) as [c1 h1]. simpl.
    rewrite Hget, Hsub. simpl. repeat split; reflexivity.
Qed.

Lemma retrieval_failure_is_absorbed_witness :
  Service.setServiceBridge (Some Sample.failingRetrieve)
                           (Service.create "plugin" "module")
  = (Returned tt,
     Service.mkState "plugin" "module" (Some Sample.failingRetrieve) true []
                     Null 0)
  /\ Listener.isServiceConnected
       (Listener.state
          (fst (Listener.initializePageContextListener "now"
                  (Sample.props Sample.failingRetrieve) Listener.mount
                  (Bridge.mkHost [] 0)))) = true.
Proof.
  destruct retrieval_failure_is_absorbed as (Hservice & _ & Hlistener).
  split.
  - apply (Hservice Sample.failingRetrieve (Error "host not ready")).
    reflexivity.
  - apply (Hlistener "now" Sample.failingRetrieve (Error "host not ready")
             None);
      reflexivity.
Defined.

(** *** The change history *)

Lemma firstn_through_truncated {T : Type} (front : list T) (r : T)
    (history : list T) :
  firstn 10 (front ++ r :: firstn 9 history)%list
  = firstn 10 (front ++ r :: history)%list.
Proof.
  rewrite !firstn_app. f_equal.
  destruct (10 - length front) as [| m] eqn:E; [reflexivity |].
  rewrite !firstn_cons. f_equal. rewrite firstn_firstn. f_equal. lia.
Qed.

Lemma records_length (ns : list (Listener.Clock * Value)) (previous : Value) :
  length (Listener.records ns previous) = length ns.
Proof.
  revert previous. induction ns as [| [clock context] ns IH]; intros previous.
  - reflexivity.
  - simpl. rewrite IH. reflexivity.
Qed.

Lemma records_newContext (ns : list (Listener.Clock * Value))
    (previous : Value) :
  map Listener.newContext (Listener.records ns previous) = map snd ns.
Proof.
  revert previous. induction ns as [| [clock context] ns IH]; intros previous.
  - reflexivity.
  - simpl. rewrite IH. reflexivity.
Qed.

(** After a non-empty run of accepted notifications the history is the ten
    newest of: the records of the run, newest first, then the old history. *)
Lemma handleChanges_history (ns : list (Listener.Clock * Value)) :
  forall st : Listener.State,
    Forall Listener.accepted ns -> ns <> [] ->
    Listener.changeHistory (Listener.handleChanges ns st)
    = firstn 10 (rev (Listener.records ns (Listener.currentContext st))
                   ++ Listener.changeHistory st)%list.
Proof.
  induction ns as [| [clock context] ns IH]; intros st Hall Hne.
  - contradiction.
  - inversion Hall as [| n ns' [Ht Ho] Hrest]; subst. simpl in Ht, Ho.
    destruct (object_inversion context Ht Ho) as (ref & fields & ->).
    unfold Listener.handleChanges. simpl fold_left.
    fold (Listener.handleChanges ns
            (Listener.handleChange clock (Obj ref fields) st)).
    destruct ns as [| n' ns''].
    + reflexivity.
    + rewrite IH; [| exact Hrest | discriminate].
      rewrite handleChange_object.
      cbn [Listener.changeHistory Listener.currentContext].
      rewrite firstn_through_truncated.
      cbn [Listener.records rev]. rewrite <- app_assoc. reflexivity.
Qed.

Lemma handleChange_history_bound (clock : Listener.Clock) (payload : Value)
    (st : Listener.State) :
  length (Listener.changeHistory st) <= 10 ->
  length (Listener.changeHistory (Listener.handleChange clock payload st))
    <= 10.
Proof.
  intros H. unfold Listener.handleChange.
  destruct (negb (truthy payload)
            || negb (String.eqb (typeof payload) "object")).
  - exact H.
  - unfold Listener.pushChange. cbn [Listener.changeHistory length].
    pose proof (firstn_le_length 9 (Listener.changeHistory st)). lia.
Qed.

Lemma cleanup_state (c : Listener.Component) (h : Bridge.Host unit) :
  Listener.state (fst (Listener.cleanup c h)) = Listener.state c.
Proof.
  unfold Listener.cleanup.
  destruct (Listener.pageContextUnsubscribe c) as [u |]; [| reflexivity].
  unfold Bridge.unsubscribe. destruct (Bridge.throws u); reflexivity.
Qed.

Lemma initialize_history_bound (now : string) (props : Listener.Props)
    (c : Listener.Component) (h : Bridge.Host unit) :
  length (Listener.changeHistory (Listener.state c)) <= 10 ->
  length (Listener.changeHistory
            (Listener.state
               (fst (Listener.initializePageContextListener now props c h))))
    <= 10.
Proof.
  intros H. rewrite <- (cleanup_state c h) in H.
  unfold Listener.initializePageContextListener.
  destruct (Listener.cleanup c h) as [c1 h1]. simpl in H.
  destruct (Listener.services props) as [[[b |]] |]; simpl; try lia.
  destruct (Bridge.onPageContextChange b) as [| sub]; simpl; try lia.
  destruct (Bridge.getCurrentPageContext b) as [| retrieve]; simpl; try lia.
  destruct sub as [e | ut]; simpl; try lia.
  destruct retrieve as [context | e]; simpl.
  - destruct (truthy context); simpl; lia.
  - lia.
Qed.

Lemma notify_history_bound (clock : Listener.Clock) (payload : Value)
    (h : Bridge.Host unit) (c : Listener.Component) :
  length (Listener.changeHistory (Listener.state c)) <= 10 ->
  length (Listener.changeHistory
            (Listener.state (Listener.notify clock payload c h))) <= 10.
Proof.
  unfold Listener.notify. revert c.
  induction (Bridge.registered h) as [| r rs IH]; intros c H; simpl.
  - exact H.
  - apply IH. simpl. apply handleChange_history_bound. exact H.
Qed.

(** C6.  In every state the component can reach the history holds at most
    ten records.  After fifteen accepted notifications it holds exactly ten:
    the records of the last ten notifications, the newest first, none of the
    first five and nothing of what was there before. *)
Theorem history_is_capped_newest_first :
  (forall w, Listener.reachable w ->
     length (Listener.changeHistory (Listener.state (fst w))) <= 10)
  /\ (forall ns st,
        length ns = 15 -> Forall Listener.accepted ns ->
        let history := Listener.changeHistory (Listener.handleChanges ns st) in
        length history = 10
        /\ history
           = rev (skipn 5 (Listener.records ns (Listener.currentContext st)))
        /\ map Listener.newContext history = rev (skipn 5 (map snd ns))).
Proof.
  split.
  - intros w Hw. induction Hw as [| w w' Hw IH Hstep].
    + simpl. lia.
    + destruct Hstep as [now props c h | clock context c h | c h | c h];
        simpl in IH.
      * apply initialize_history_bound. exact IH.
      * simpl. apply notify_history_bound. exact IH.
      * simpl. lia.
      * rewrite cleanup_state. exact IH.
  - intros ns st Hlen Hall. simpl.
    assert (Hne : ns <> []) by (intros ->; discriminate).
    assert (E : Listener.changeHistory (Listener.handleChanges ns st)
                = rev (skipn 5 (Listener.records ns
                                  (Listener.currentContext st)))).
    { rewrite (handleChanges_history ns st Hall Hne).
      rewrite firstn_app, length_rev, records_length, Hlen.
      simpl (10 - 15). rewrite firstn_0, app_nil_r.
      rewrite firstn_rev, records_length, Hlen. reflexivity. }
    rewrite E. repeat split.
    + rewrite length_rev, length_skipn, records_length, Hlen. reflexivity.
    + rewrite map_rev, <- skipn_map, records_newContext. reflexivity.
Qed.

Lemma history_is_capped_newest_first_witness :
  length (Listener.changeHistory
            (Listener.state
               (Listener.notify Sample.clock Sample.about
                  (fst Sample.listening) (snd Sample.listening)))) <= 10
  /\ map Listener.newContext
       (Listener.changeHistory
          (Listener.handleChanges Sample.fifteen
             (Listener.state (fst Sample.listening))))
     = rev (skipn 5 (map snd Sample.fifteen)).
Proof.
  destruct history_is_capped_newest_first as (Hcap & Hrun).
  split.
  - apply (Hcap (Listener.notify Sample.clock Sample.about
                   (fst Sample.listening) (snd Sample.listening),
                 snd Sample.listening)).
    apply (Listener.reachable_step Sample.listening).
    + apply (Listener.reachable_step (Listener.mount, Bridge.mkHost [] 0)).
      * apply Listener.reachable_mount.
      * apply Listener.step_initialize.
    + destruct Sample.listening as [c h]. apply Listener.step_notify.
  - apply (Hrun Sample.fifteen (Listener.state (fst Sample.listening))).
    + reflexivity.
    + repeat constructor.
Defined.

(** *** Subscribing through the service wrapper *)

Lemma onPageContextChange_registers (listener : Value) (w : Service.World)
    (b : Bridge.t) (unsubscribeThrows : option Thrown) :
  Service.serviceBridge (Service.service w) = Some b ->
  Service.isConnected (Service.service w) = true ->
  Bridge.onPageContextChange b
    = Bridge.Function (Bridge.Registers unsubscribeThrows) ->
  Service.validateListener listener = true ->
  Service.onPageContextChange listener w
  = (Returned
       (Service.mkTeardown listener
          (Bridge.mkUnsubscribe (Bridge.nextRegistration (Service.host w))
                                unsubscribeThrows)),
     Service.mkWorld
       (Service.withListeners
          (Service.setAdd listener (Service.listeners (Service.service w)))
          (Service.service w))
       (Bridge.mkHost
          (Bridge.registered (Service.host w)
             ++ [(Bridge.nextRegistration (Service.host w), listener)])%list
          (S (Bridge.nextRegistration (Service.host w))))
       (Service.invoked w)).
Proof.
  intros Hb Hc Hsub Hl.
  unfold Service.onPageContextChange, Service.isServiceAvailable.
  rewrite Hb, Hc, Hl. simpl.
  unfold Service.callSubscribe. simpl. rewrite Hb, Hsub. reflexivity.
Qed.

(** C8, as amended.  On a connected service whose bridge registers
    callbacks, every call of [onPageContextChange] with a function registers
    one more forwarding callback with the bridge, for that listener, and
    returns a teardown of its own for that registration.  Two calls -- with
    two listeners or twice with the same one -- leave two more callbacks
    with the bridge and return two different teardowns. *)
Theorem each_subscription_registers_a_forwarder (first second : Value)
    (w : Service.World) (b : Bridge.t) (unsubscribeThrows : option Thrown) :
  Service.serviceBridge (Service.service w) = Some b ->
  Service.isConnected (Service.service w) = true ->
  Bridge.onPageContextChange b
    = Bridge.Function (Bridge.Registers unsubscribeThrows) ->
  Service.validateListener first = true ->
  Service.validateListener second = true ->
  exists t1 w1 t2 w2,
    Service.onPageContextChange first w = (Returned t1, w1)
    /\ Service.onPageContextChange second w1 = (Returned t2, w2)
    /\ Bridge.registered (Service.host w1)
       = (Bridge.registered (Service.host w)
            ++ [(Bridge.nextRegistration (Service.host w), first)])%list
    /\ Bridge.registered (Service.host w2)
       = (Bridge.registered (Service.host w)
            ++ [(Bridge.nextRegistration (Service.host w), first);
                (S (Bridge.nextRegistration (Service.host w)), second)])%list
    /\ Bridge.registration (Service.bridgeUnsubscribe t1)
       = Bridge.nextRegistration (Service.host w)
    /\ Bridge.registration (Service.bridgeUnsubscribe t2)
       = S (Bridge.nextRegistration (Service.host w))
    /\ t1 <> t2.
Proof.
  intros Hb Hc Hsub H1 H2.
  pose proof (onPageContextChange_registers first w b unsubscribeThrows
                Hb Hc Hsub H1) as E1.
  eexists. eexists. eexists. eexists.
  split; [exact E1 |].
  split.
  - apply (onPageContextChange_registers second _ b unsubscribeThrows);
      simpl; assumption.
  - simpl. rewrite <- app_assoc. simpl.
    repeat split; try reflexivity.
    intros E. injection E as _ E'. lia.
Qed.

Lemma each_subscription_registers_a_forwarder_witness :
  exists t1 w1 t2 w2,
    Service.onPageContextChange Sample.firstListener Sample.connected
      = (Returned t1, w1)
    /\ Service.onPageContextChange Sample.secondListener w1 = (Returned t2, w2)
    /\ Bridge.registered (Service.host w2)
       = [(0, Sample.firstListener); (1, Sample.secondListener)]
    /\ t1 <> t2.
Proof.
  destruct (each_subscription_registers_a_forwarder
              Sample.firstListener Sample.secondListener Sample.connected
              (Sample.bridge (Returned Sample.home)) None)
    as (t1 & w1 & t2 & w2 & E1 & E2 & _ & R2 & _ & _ & Hne);
    try reflexivity.
  exists t1, w1, t2, w2. repeat split; assumption.
Defined.

(** C8 as the specification states it fails: a second subscription while the
    first is active is not a no-op.  The bridge then holds two forwarding
    callbacks, the two teardowns differ, and a listener subscribed twice is
    called twice for one notification. *)
Lemma second_subscription_registers_again :
  let w1 := snd (Service.onPageContextChange Sample.firstListener
                                             Sample.connected) in
  let w2 := snd (Service.onPageContextChange Sample.firstListener w1) in
  length (Bridge.registered (Service.host w1)) = 1
  /\ Bridge.registered (Service.host w2)
     = [(0, Sample.firstListener); (1, Sample.firstListener)]
  /\ w2 <> w1
  /\ fst (Service.onPageContextChange Sample.firstListener Sample.connected)
     <> fst (Service.onPageContextChange Sample.firstListener w1)
  /\ Service.listeners (Service.service w2) = [Sample.firstListener]
  /\ Service.invoked (Service.notify Sample.about w2)
     = [(Sample.firstListener, Sample.about);
        (Sample.firstListener, Sample.about)].
Proof.
  simpl. repeat split; try reflexivity; discriminate.
Qed.

(** *** Operations on a service that is not connected *)

(** C9.  While no bridge is attached (or the service is not connected) both
    [getCurrentPageContext] and [onPageContextChange] throw the
    SERVICE_UNAVAILABLE error and change nothing. *)
Theorem disconnected_service_is_unavailable (w : Service.World) :
  Service.serviceBridge (Service.service w) = None
  \/ Service.isConnected (Service.service w) = false ->
  Service.getCurrentPageContext (Service.service w)
    = (Threw Service.unavailable, Service.service w)
  /\ (forall listener,
        Service.onPageContextChange listener w = (Threw Service.unavailable, w))
  /\ Service.unavailable
     = ServiceError
         "PageContext Service not available. Ensure setServiceBridge() was called."
         "SERVICE_UNAVAILABLE".
Proof.
  intros H.
  assert (E : Service.isServiceAvailable (Service.service w) = false).
  { unfold Service.isServiceAvailable. destruct H as [H | H].
    - rewrite H. reflexivity.
    - rewrite H. destruct (Service.serviceBridge (Service.service w));
        reflexivity. }
  split; [| split].
  - unfold Service.getCurrentPageContext. rewrite E. reflexivity.
  - intros listener. unfold Service.onPageContextChange. rewrite E.
    reflexivity.
  - reflexivity.
Qed.

Lemma disconnected_service_is_unavailable_witness :
  Service.getCurrentPageContext (Service.create "plugin" "module")
    = (Threw Service.unavailable, Service.create "plugin" "module")
  /\ fst (Service.onPageContextChange Sample.firstListener
            (Service.mkWorld (Service.create "plugin" "module")
                             (Bridge.mkHost [] 0) []))
     = Threw Service.unavailable.
Proof.
  destruct (disconnected_service_is_unavailable
              (Service.mkWorld (Service.create "plugin" "module")
                               (Bridge.mkHost [] 0) []))
    as (Hget & Hsub & _).
  - left. reflexivity.
  - split.
    + exact Hget.
    + rewrite Hsub. reflexivity.
Defined.

(** *** An absent context from the bridge *)

(** C10, as amended.  On a connected service whose bridge reports no
    context, [getCurrentPageContext] returns [null] without throwing and the
    context cached by the service becomes [null].  That cache is not what a
    change is classified against: the listener component classifies an
    accepted notification against the context in its own state, whatever
    the service has cached, and records an initial load exactly when that
    context is falsy. *)
Theorem absent_context_overwrites_only_the_cache (s : Service.State)
    (b : Bridge.t) :
  Service.serviceBridge s = Some b ->
  Service.isConnected s = true ->
  Bridge.getCurrentPageContext b = Bridge.Function (Returned Null) ->
  Service.getCurrentPageContext s
    = (Returned Null,
       Service.mkState (Service.pluginId s) (Service.moduleId s) (Some b) true
         (Service.listeners s) Null (S (Service.operationCount s)))
  /\ forall clock ref fields st,
       Listener.changeHistory (Listener.handleChange clock (Obj ref fields) st)
       = Listener.mkChange (Listener.iso clock) (Listener.currentContext st)
           (Obj ref fields)
           (Listener.determineChangeType (Listener.currentContext st)
                                         (Obj ref fields))
           :: firstn 9 (Listener.changeHistory st)
       /\ (Listener.determineChangeType (Listener.currentContext st)
                                        (Obj ref fields) = "Initial Load"
           <-> truthy (Listener.currentContext st) = false).
Proof.
  intros Hb Hc Hget. split.
  - unfold Service.getCurrentPageContext, Service.isServiceAvailable,
      Service.callGetCurrent.
    rewrite Hb, Hc, Hget. reflexivity.
  - intros clock ref fields st. split; [reflexivity |].
    unfold Listener.determineChangeType.
    destruct (truthy (Listener.currentContext st)); simpl.
    + split; [| discriminate].
      destruct (strictNe _ _); [discriminate |].
      destruct (strictNe _ _); [discriminate |].
      destruct (strictNe _ _); discriminate.
    + split; reflexivity.
Qed.

Lemma absent_context_overwrites_only_the_cache_witness :
  Service.getCurrentPageContext Sample.nowAbsent
    = (Returned Null,
       Service.mkState "plugin" "module"
         (Some (Sample.bridge (Returned Null))) true [] Null 1)
  /\ Listener.determineChangeType
       (Listener.currentContext (Listener.state (fst Sample.listening)))
       Sample.about <> "Initial Load"
  /\ Listener.determineChangeType
       (Listener.currentContext Listener.initialState) Sample.about
     = "Initial Load".
Proof.
  destruct (absent_context_overwrites_only_the_cache Sample.nowAbsent
              (Sample.bridge (Returned Null)) eq_refl eq_refl eq_refl)
    as (E & H).
  split; [exact E |]. split.
  - intros I.
    apply (H Sample.clock 3
             [("pageId", Str "x"); ("pageName", Str "Home");
              ("pageRoute", Str "/about")]
             (Listener.state (fst Sample.listening))) in I.
    discriminate I.
  - apply (H Sample.clock 3
             [("pageId", Str "x"); ("pageName", Str "Home");
              ("pageRoute", Str "/about")]
             Listener.initialState).
    reflexivity.
Defined.

(** C10 as the specification states it fails.  The service cached [home] and
    its bridge now reports no context: [getCurrentPageContext] returns
    [null] and the cache becomes [null].  The next notification is not an
    initial load for that.  Through the service it is only cached and
    forwarded, nothing is classified; and the listening component, whose
    own state still holds [home], records it as a route change from
    [home]. *)
Lemma absent_context_leaves_the_listener_baseline :
  let s' := snd (Service.getCurrentPageContext Sample.nowAbsent) in
  fst (Service.getCurrentPageContext Sample.nowAbsent) = Returned Null
  /\ Service.currentContext s' = Null
  /\ (let w := snd (Service.onPageContextChange Sample.firstListener
                      (Service.mkWorld s' (Bridge.mkHost [] 0) [])) in
      Service.invoked (Service.notify Sample.about w)
        = [(Sample.firstListener, Sample.about)]
      /\ Service.currentContext (Service.service (Service.notify Sample.about w))
         = Sample.about)
  /\ (let st := Listener.handleChange Sample.clock Sample.about
                  (Listener.state (fst Sample.listening)) in
      map Listener.changeType (Listener.changeHistory st)
        = ["Route Change"; "Initial Load"]
      /\ map Listener.previousContext (Listener.changeHistory st)
         = [Sample.home; Null]
      /\ hd "" (map Listener.changeType (Listener.changeHistory st))
         <> "Initial Load").
Proof.
  simpl. repeat split; try reflexivity. discriminate.
Qed.

(* ================================================================== *)
(** ** Further properties of the service wrapper *)
(* ================================================================== *)

Lemma strictEq_refl (v : Value) : strictEq v v = true.
Proof.
  destruct v; simpl; try reflexivity.
  - apply Bool.eqb_reflx.
  - apply Z.eqb_refl.
  - apply String.eqb_refl.
  - apply Nat.eqb_refl.
  - apply Nat.eqb_refl.
Qed.

Lemma typeof_string (v : Value) :
  String.eqb (typeof v) "string" = true <-> exists s, v = Str s.
Proof.
  split.
  - destruct v; simpl; intros H; try discriminate. eauto.
  - intros [s ->]. reflexivity.
Qed.

(** X1.  [validatePageContext] accepts exactly the objects whose [pageId],
    [pageName] and [pageRoute] are strings; the strings may be empty and the
    object may carry other fields. *)
Theorem validatePageContext_accepts_string_fields (v : Value) :
  Service.validatePageContext v = true
  <-> exists ref fields id name route,
        v = Obj ref fields
        /\ lookup "pageId" fields = Str id
        /\ lookup "pageName" fields = Str name
        /\ lookup "pageRoute" fields = Str route.
Proof.
  split.
  - unfold Service.validatePageContext.
    destruct v as [| | b | n | s | ref fields | ref]; simpl;
      try discriminate; try (rewrite orb_true_r; discriminate).
    rewrite !andb_true_iff. intros (Hid & Hname & Hroute & _).
    apply typeof_string in Hid, Hname, Hroute.
    destruct Hid as [id Hid], Hname as [name Hname], Hroute as [route Hroute].
    exists ref, fields, id, name, route. auto.
  - intros (ref & fields & id & name & route & -> & Hid & Hname & Hroute).
    unfold Service.validatePageContext. simpl.
    rewrite Hid, Hname, Hroute. reflexivity.
Qed.

Lemma validatePageContext_accepts_string_fields_witness :
  Service.validatePageContext
    (Obj 7 [("studio", Bool true); ("pageId", Str ""); ("pageName", Str "");
            ("pageRoute", Str "")]) = true.
Proof.
  apply validatePageContext_accepts_string_fields.
  exists 7, [("studio", Bool true); ("pageId", Str ""); ("pageName", Str "");
             ("pageRoute", Str "")], "", "", "".
  repeat split; reflexivity.
Defined.

(** X2.  [getCurrentPageContext] has two outcomes.  It returns a value that
    is falsy or passes [validatePageContext], and then that value is the
    cached context and the operation count went up by one; or it throws a
    [PageContextServiceError] and leaves the service exactly as it was. *)
Theorem getCurrentPageContext_returns_valid_or_throws (s : Service.State) :
  match Service.getCurrentPageContext s with
  | (Returned v, s') =>
      (truthy v = false \/ Service.validatePageContext v = true)
      /\ Service.isServiceAvailable s = true
      /\ s' = Service.mkState (Service.pluginId s) (Service.moduleId s)
                (Service.serviceBridge s) (Service.isConnected s)
                (Service.listeners s) v (S (Service.operationCount s))
  | (Threw e, s') => s' = s /\ exists message code, e = ServiceError message code
  end.
Proof.
  unfold Service.getCurrentPageContext.
  destruct (Service.isServiceAvailable s); simpl.
  - destruct (Service.callGetCurrent s) as [v | e].
    + destruct (truthy v) eqn:Ht; simpl.
      * destruct (Service.validatePageContext v) eqn:Hv; simpl.
        -- repeat split; auto.
        -- split; [reflexivity | eauto].
      * repeat split; auto.
    + destruct e; simpl; split; try reflexivity; eauto.
  - split; [reflexivity |]. unfold Service.unavailable. eauto.
Qed.

(** X3.  Which error [getCurrentPageContext] throws on a connected service.
    A truthy value that fails validation gives INVALID_CONTEXT, and this
    error is not re-wrapped by the surrounding [catch].  A bridge that throws
    a plain error, or has no callable [getCurrentPageContext], gives
    GET_CONTEXT_FAILED carrying the message; a thrown value that is not an
    error gives the message "Unknown error".  A [PageContextServiceError]
    thrown by the bridge itself passes through unchanged. *)
Theorem getCurrentPageContext_error_codes (s : Service.State) (b : Bridge.t) :
  Service.serviceBridge s = Some b ->
  Service.isConnected s = true ->
  (forall v,
      Bridge.getCurrentPageContext b = Bridge.Function (Returned v) ->
      truthy v = true -> Service.validatePageContext v = false ->
      Service.getCurrentPageContext s
      = (Threw (ServiceError "Invalid page context returned from service"
                             "INVALID_CONTEXT"), s))
  /\ (forall message,
        Bridge.getCurrentPageContext b = Bridge.Function (Threw (Error message)) ->
        Service.getCurrentPageContext s
        = (Threw (ServiceError ("Failed to get page context: " ++ message)
                               "GET_CONTEXT_FAILED"), s))
  /\ (forall thrown,
        Bridge.getCurrentPageContext b
          = Bridge.Function (Threw (NonError thrown)) ->
        Service.getCurrentPageContext s
        = (Threw (ServiceError "Failed to get page context: Unknown error"
                               "GET_CONTEXT_FAILED"), s))
  /\ (forall message code,
        Bridge.getCurrentPageContext b
          = Bridge.Function (Threw (ServiceError message code)) ->
        Service.getCurrentPageContext s = (Threw (ServiceError message code), s))
  /\ (Bridge.getCurrentPageContext b = Bridge.NotAFunction ->
      exists message,
        Service.getCurrentPageContext s
        = (Threw (ServiceError ("Failed to get page context: " ++ message)
                               "GET_CONTEXT_FAILED"), s)).
Proof.
  intros Hb Hc.
  assert (Ha : Service.isServiceAvailable s = true).
  { unfold Service.isServiceAvailable. rewrite Hb. exact Hc. }
  unfold Service.getCurrentPageContext, Service.callGetCurrent.
  rewrite Ha, Hb. simpl.
  repeat split.
  - intros v Hget Ht Hv. rewrite Hget, Ht, Hv. reflexivity.
  - intros message Hget. rewrite Hget. reflexivity.
  - intros thrown Hget. rewrite Hget. reflexivity.
  - intros message code Hget. rewrite Hget. reflexivity.
  - intros Hget. rewrite Hget. eexists. reflexivity.
Qed.

Lemma getCurrentPageContext_error_codes_witness :
  Service.getCurrentPageContext
    (snd (Service.setServiceBridge
            (Some (Sample.bridge (Returned (Str "/about"))))
            (Service.create "plugin" "module")))
  = (Threw (ServiceError "Invalid page context returned from service"
                         "INVALID_CONTEXT"),
     snd (Service.setServiceBridge
            (Some (Sample.bridge (Returned (Str "/about"))))
            (Service.create "plugin" "module"))).
Proof.
  destruct (getCurrentPageContext_error_codes
              (snd (Service.setServiceBridge
                      (Some (Sample.bridge (Returned (Str "/about"))))
                      (Service.create "plugin" "module")))
              (Sample.bridge (Returned (Str "/about")))
              eq_refl eq_refl) as (Hinvalid & _).
  apply (Hinvalid (Str "/about")); reflexivity.
Defined.

(** X4.  When [onPageContextChange] throws, it throws a
    [PageContextServiceError], the host holds the callbacks it held before
    and no listener was called.  Either nothing changed at all, or the error
    is ADD_LISTENER_FAILED and the listener is left in the tracked set
    although the bridge holds no callback for it. *)
Theorem onPageContextChange_failure (listener : Value) (w w' : Service.World)
    (e : Thrown) :
  Service.onPageContextChange listener w = (Threw e, w') ->
  Service.host w' = Service.host w
  /\ Service.invoked w' = Service.invoked w
  /\ (exists message code, e = ServiceError message code)
  /\ (w' = w
      \/ (exists message, e = ServiceError message "ADD_LISTENER_FAILED")
         /\ Service.service w'
            = Service.withListeners
                (Service.setAdd listener
                   (Service.listeners (Service.service w)))
                (Service.service w)).
Proof.
  unfold Service.onPageContextChange.
  destruct (Service.isServiceAvailable (Service.service w)); simpl.
  - destruct (Service.validateListener listener); simpl.
    + unfold Service.callSubscribe. simpl.
      destruct (Service.serviceBridge (Service.service w)) as [b |].
      * destruct (Bridge.onPageContextChange b) as [| [e' | ut]]; simpl;
          intros H; inversion H; subst; simpl;
          repeat split; eauto.
      * intros H; inversion H; subst; simpl. repeat split; eauto.
    + intros H; inversion H; subst. repeat split; eauto.
  - intros H; inversion H; subst. unfold Service.unavailable.
    repeat split; eauto.
Qed.

Lemma onPageContextChange_failure_witness :
  Service.listeners
    (Service.service
       (snd (Service.onPageContextChange Sample.firstListener
               (Service.mkWorld
                  (snd (Service.setServiceBridge
                          (Some Sample.withoutSubscribe)
                          (Service.create "plugin" "module")))
                  (Bridge.mkHost [] 0) []))))
  = [Sample.firstListener].
Proof.
  destruct (onPageContextChange_failure Sample.firstListener
              (Service.mkWorld
                 (snd (Service.setServiceBridge
                         (Some Sample.withoutSubscribe)
                         (Service.create "plugin" "module")))
                 (Bridge.mkHost [] 0) [])
              _ _ eq_refl) as (_ & _ & _ & [H | [_ H]]).
  - discriminate H.
  - apply (f_equal Service.listeners) in H. exact H.
Defined.

Lemma filter_keeps_all {T : Type} (f : T -> bool) (l : list T) :
  existsb f l = false -> filter (fun x => negb (f x)) l = l.
Proof.
  induction l as [| x l IH]; simpl; [reflexivity |].
  intros H. apply orb_false_iff in H as [Hx Hl].
  rewrite Hx. simpl. rewrite IH by exact Hl. reflexivity.
Qed.

Lemma filter_leaves_none {T : Type} (f : T -> bool) (l : list T) :
  existsb f (filter (fun x => negb (f x)) l) = false.
Proof.
  induction l as [| x l IH]; simpl; [reflexivity |].
  destruct (f x) eqn:E; simpl; [exact IH |].
  rewrite E, IH. reflexivity.
Qed.


Lemma fresh_registration_kept {C : Type} (n : nat) (rs : list (nat * C)) :
  Forall (fun r => fst r < n) rs ->
  filter (fun r => negb (Nat.eqb (fst r) n)) rs = rs.
Proof.
  intros H. apply (filter_keeps_all (fun r => Nat.eqb (fst r) n)).
  induction H as [| r rs Hr _ IH]; simpl; [reflexivity |].
  rewrite IH, orb_false_r. apply Nat.eqb_neq. lia.
Qed.

(** X5.  Subscribing a listener that is not tracked yet and then calling the
    function [onPageContextChange] returned undoes the subscription: the
    host holds the callbacks it held before, the tracked set and the rest of
    the service are as before, no listener was called.  (The host has only
    moved on to its next registration number.) *)
Theorem subscribe_then_teardown_restores (listener : Value)
    (w : Service.World) (b : Bridge.t) :
  Service.serviceBridge (Service.service w) = Some b ->
  Service.isConnected (Service.service w) = true ->
  Bridge.onPageContextChange b = Bridge.Function (Bridge.Registers None) ->
  Service.validateListener listener = true ->
  existsb (strictEq listener) (Service.listeners (Service.service w)) = false ->
  Forall (fun r => fst r < Bridge.nextRegistration (Service.host w))
         (Bridge.registered (Service.host w)) ->
  exists t w1,
    Service.onPageContextChange listener w = (Returned t, w1)
    /\ Service.teardown t w1
       = (Returned tt,
          Service.mkWorld (Service.service w)
            (Bridge.mkHost (Bridge.registered (Service.host w))
                           (S (Bridge.nextRegistration (Service.host w))))
            (Service.invoked w)).
Proof.
  intros Hb Hc Hsub Hl Hnew Hfresh.
  eexists. eexists. split.
  - apply (onPageContextChange_registers listener w b None Hb Hc Hsub Hl).
  - unfold Service.teardown, Bridge.unsubscribe, Service.setAdd,
      Service.setDelete. simpl. rewrite Hnew.
    rewrite !filter_app. simpl.
    rewrite strictEq_refl, Nat.eqb_refl. simpl. rewrite !app_nil_r.
    rewrite (filter_keeps_all (strictEq listener)) by exact Hnew.
    rewrite fresh_registration_kept by exact Hfresh.
    destruct w as [[] ? ?]. reflexivity.
Qed.

Lemma subscribe_then_teardown_restores_witness :
  exists t w1,
    Service.onPageContextChange Sample.firstListener Sample.connected
      = (Returned t, w1)
    /\ Service.teardown t w1
       = (Returned tt,
          Service.mkWorld (Service.service Sample.connected)
                          (Bridge.mkHost [] 1) []).
Proof.
  apply (subscribe_then_teardown_restores Sample.firstListener
           Sample.connected (Sample.bridge (Returned Sample.home)));
    try reflexivity.
  constructor.
Defined.


(** X8.  [removeAllListeners] only empties the tracked set.  It unsubscribes
    nothing: the bridge keeps every forwarding callback, and the next
    notification still reaches every listener that was subscribed. *)
Theorem removeAllListeners_keeps_subscriptions (payload : Value)
    (w : Service.World) :
  let w' := Service.withService
              (Service.removeAllListeners (Service.service w)) w in
  Service.listeners (Service.service w') = []
  /\ Service.host w' = Service.host w
  /\ Service.invoked (Service.notify payload w')
     = (Service.invoked w
          ++ map (fun r => (snd r, payload))
                 (Bridge.registered (Service.host w)))%list.
Proof.
  simpl. repeat split.
  unfold Service.notify.
  destruct (service_forward_all payload
              (Bridge.registered (Service.host w))
              (Service.withService
                 (Service.removeAllListeners (Service.service w)) w))
    as (Hi & _).
  exact Hi.
Qed.

(** X9.  The tracked set follows listeners, the bridge follows
    subscriptions.  After the same listener is subscribed twice and the
    first subscription is undone, the listener is no longer tracked, yet the
    bridge still holds the callback of the second subscription. *)
Theorem tracking_forgets_a_listener_still_subscribed (listener : Value)
    (w : Service.World) (b : Bridge.t) :
  Service.serviceBridge (Service.service w) = Some b ->
  Service.isConnected (Service.service w) = true ->
  Bridge.onPageContextChange b = Bridge.Function (Bridge.Registers None) ->
  Service.validateListener listener = true ->
  Forall (fun r => fst r < Bridge.nextRegistration (Service.host w))
         (Bridge.registered (Service.host w)) ->
  exists t1 w1 t2 w2 w3,
    Service.onPageContextChange listener w = (Returned t1, w1)
    /\ Service.onPageContextChange listener w1 = (Returned t2, w2)
    /\ Service.teardown t1 w2 = (Returned tt, w3)
    /\ existsb (strictEq listener) (Service.listeners (Service.service w3))
       = false
    /\ Bridge.registered (Service.host w3)
       = (Bridge.registered (Service.host w)
            ++ [(S (Bridge.nextRegistration (Service.host w)), listener)])%list.
Proof.
  intros Hb Hc Hsub Hl Hfresh.
  eexists. eexists. eexists. eexists. eexists.
  split.
  { apply (onPageContextChange_registers listener w b None Hb Hc Hsub Hl). }
  split.
  { apply (onPageContextChange_registers listener _ b None); simpl;
      assumption. }
  split.
  { unfold Service.teardown, Bridge.unsubscribe. simpl. reflexivity. }
  cbn -[Nat.eqb]. split.
  - apply (filter_leaves_none (strictEq listener)).
  - rewrite <- app_assoc, filter_app. cbn -[Nat.eqb].
    rewrite Nat.eqb_refl.
    assert (E : Nat.eqb (S (Bridge.nextRegistration (Service.host w)))
                        (Bridge.nextRegistration (Service.host w)) = false)
      by (apply Nat.eqb_neq; lia).
    rewrite E. cbn.
    rewrite fresh_registration_kept by exact Hfresh. reflexivity.
Qed.

Lemma tracking_forgets_a_listener_still_subscribed_witness :
  exists t1 w1 t2 w2 w3,
    Service.onPageContextChange Sample.firstListener Sample.connected
      = (Returned t1, w1)
    /\ Service.onPageContextChange Sample.firstListener w1 = (Returned t2, w2)
    /\ Service.teardown t1 w2 = (Returned tt, w3)
    /\ Service.listeners (Service.service w3) = []
    /\ Bridge.registered (Service.host w3) = [(1, Sample.firstListener)].
Proof.
  destruct (tracking_forgets_a_listener_still_subscribed Sample.firstListener
              Sample.connected (Sample.bridge (Returned Sample.home))
              eq_refl eq_refl eq_refl eq_refl (Forall_nil _))
    as (t1 & w1 & t2 & w2 & w3 & E1 & E2 & E3 & _ & R).
  exists t1, w1, t2, w2, w3.
  repeat split; try assumption.
  injection E1 as <- <-. injection E2 as <- <-. injection E3 as <-.
  reflexivity.
Defined.

(* ================================================================== *)
(** ** Further properties of the listener component *)
(* ================================================================== *)

Lemma chained_firstn (n : nat) (history : list Listener.PageContextChange) :
  Listener.chained history -> Listener.chained (firstn n history).
Proof.
  revert n. induction history as [| r history IH]; intros n H.
  - rewrite firstn_nil. exact I.
  - destruct n as [| n]; [exact I |].
    destruct history as [| r' history'].
    + rewrite firstn_cons, firstn_nil. exact I.
    + destruct H as [Hr Hrest]. destruct n as [| n].
      * exact I.
      * rewrite firstn_cons. specialize (IH (S n) Hrest).
        rewrite firstn_cons in IH. rewrite firstn_cons.
        split; assumption.
Qed.

Lemma Forall_firstn_kept {T : Type} (P : T -> Prop) (n : nat) (l : list T) :
  Forall P l -> Forall P (firstn n l).
Proof.
  revert n. induction l as [| x l IH]; intros n H.
  - rewrite firstn_nil. constructor.
  - destruct n as [| n]; [constructor |].
    inversion H; subst. rewrite firstn_cons. constructor; auto.
Qed.

Lemma handleChange_wellFormed (clock : Listener.Clock) (payload : Value)
    (st : Listener.State) :
  Listener.wellFormed st ->
  Listener.wellFormed (Listener.handleChange clock payload st).
Proof.
  intros (Hchain & Hall & Hhead).
  destruct (truthy payload) eqn:Ht;
    [destruct (String.eqb_spec (typeof payload) "object") as [Ho | Ho] |].
  - destruct (object_inversion payload Ht Ho) as (ref & fields & ->).
    rewrite handleChange_object. unfold Listener.wellFormed.
    cbn [Listener.changeHistory Listener.currentContext].
    repeat split.
    + destruct (Listener.changeHistory st) as [| r history] eqn:E.
      * exact I.
      * rewrite firstn_cons. split.
        -- cbn [Listener.previousContext]. symmetry. exact Hhead.
        -- apply (chained_firstn 9 (r :: history)) in Hchain.
           rewrite firstn_cons in Hchain. exact Hchain.
    + constructor.
      * split; reflexivity.
      * apply Forall_firstn_kept. exact Hall.
  - rewrite handleChange_rejects by (right; exact Ho).
    repeat split; assumption.
  - rewrite handleChange_rejects by (left; exact Ht).
    repeat split; assumption.
Qed.

Lemma notify_wellFormed (clock : Listener.Clock) (payload : Value)
    (h : Bridge.Host unit) (c : Listener.Component) :
  Listener.wellFormed (Listener.state c) ->
  Listener.wellFormed (Listener.state (Listener.notify clock payload c h)).
Proof.
  unfold Listener.notify. revert c.
  induction (Bridge.registered h) as [| r rs IH]; intros c H; simpl.
  - exact H.
  - apply IH. simpl. apply handleChange_wellFormed. exact H.
Qed.

Lemma initialize_wellFormed (now : string) (props : Listener.Props)
    (c : Listener.Component) (h : Bridge.Host unit) :
  Listener.wellFormed (Listener.state c) ->
  Listener.wellFormed
    (Listener.state
       (fst (Listener.initializePageContextListener now props c h))).
Proof.
  intros H. rewrite <- (cleanup_state c h) in H.
  unfold Listener.initializePageContextListener.
  destruct (Listener.cleanup c h) as [c1 h1]. simpl in H.
  assert (Hempty : forall a b e s v,
             Listener.wellFormed (Listener.mkState a b e s [] v)).
  { intros. repeat split. constructor. }
  destruct (Listener.services props) as [[[b |]] |]; simpl;
    try exact H; try apply Hempty.
  destruct (Bridge.onPageContextChange b) as [| sub]; simpl; try exact H.
  destruct (Bridge.getCurrentPageContext b) as [| retrieve]; simpl;
    try exact H.
  destruct sub as [e | ut]; simpl; try exact H.
  destruct retrieve as [context | e]; simpl; try apply Hempty.
  destruct (truthy context) eqn:Ht; try apply Hempty.
  repeat split. constructor; [| constructor].
  split; [reflexivity | exact Ht].
Qed.

(** Along the step relation, where the update of a callback is applied
    before the next callback runs, the history is moreover a chain. *)
Lemma history_is_a_chain (w : Listener.Component * Bridge.Host unit) :
  Listener.reachable w -> Listener.wellFormed (Listener.state (fst w)).
Proof.
  intros Hw. induction Hw as [| w w' Hw IH Hstep].
  - repeat split. constructor.
  - destruct Hstep as [now props c h | clock context c h | c h | c h];
      simpl in IH.
    + apply initialize_wellFormed. exact IH.
    + simpl. apply notify_wellFormed. exact IH.
    + simpl. repeat split. constructor.
    + rewrite cleanup_state. exact IH.
Qed.

Lemma notify_keeps_subscription (clock : Listener.Clock) (payload : Value)
    (h : Bridge.Host unit) (c : Listener.Component) :
  Listener.pageContextUnsubscribe (Listener.notify clock payload c h)
    = Listener.pageContextUnsubscribe c
  /\ Listener.isListening (Listener.state (Listener.notify clock payload c h))
     = Listener.isListening (Listener.state c)
  /\ Listener.isServiceConnected
       (Listener.state (Listener.notify clock payload c h))
     = Listener.isServiceConnected (Listener.state c)
  /\ Listener.error (Listener.state (Listener.notify clock payload c h))
     = Listener.error (Listener.state c).
Proof.
  unfold Listener.notify. revert c.
  induction (Bridge.registered h) as [| r rs IH]; intros c; simpl.
  - repeat split.
  - destruct (IH (Listener.mkComponent
                    (Listener.handleChange clock payload (Listener.state c))
                    (Listener.pageContextUnsubscribe c)))
      as (Hu & Hl & Hc & He).
    rewrite Hu, Hl, Hc, He. simpl.
    unfold Listener.handleChange.
    destruct (negb (truthy payload)
              || negb (String.eqb (typeof payload) "object"));
      repeat split.
Qed.

Lemma cleanup_single (w : Listener.Component * Bridge.Host unit) :
  Listener.singleRegistration w ->
  Listener.pageContextUnsubscribe (fst (Listener.cleanup (fst w) (snd w)))
    = None
  /\ Bridge.registered (snd (Listener.cleanup (fst w) (snd w))) = [].
Proof.
  destruct w as [c h]. unfold Listener.singleRegistration, Listener.cleanup.
  simpl. destruct (Listener.pageContextUnsubscribe c) as [u |] eqn:E.
  - intros (Hthrows & Hreg & _). unfold Bridge.unsubscribe.
    rewrite Hthrows, Hreg. simpl. rewrite Nat.eqb_refl. simpl. split;
      reflexivity.
  - intros Hreg. simpl. rewrite E. split; [reflexivity | exact Hreg].
Qed.

Lemma apply_single (op : Listener.Op)
    (w : Listener.Component * Bridge.Host unit) :
  Listener.politeOp op = true ->
  Listener.singleRegistration w ->
  Listener.singleRegistration (Listener.apply op w).
Proof.
  intros Hop Hw. destruct op as [now props | clock payload | |].
  - destruct (cleanup_single w Hw) as (Hu & Hr).
    unfold Listener.apply, Listener.initializePageContextListener.
    destruct (Listener.cleanup (fst w) (snd w)) as [c1 h1].
    simpl in Hu, Hr.
    assert (Hfail : forall st, Listener.singleRegistration
                      (Listener.mkComponent st
                         (Listener.pageContextUnsubscribe c1), h1)).
    { intros st. unfold Listener.singleRegistration. simpl.
      rewrite Hu. exact Hr. }
    destruct props as [[[[b |]] |]]; simpl; try apply Hfail.
    simpl in Hop. unfold Listener.politeBridge in Hop.
    destruct (Bridge.onPageContextChange b) as [| sub]; simpl;
      try apply Hfail.
    destruct (Bridge.getCurrentPageContext b) as [| retrieve]; simpl;
      try apply Hfail.
    destruct sub as [e | [e |]]; simpl; try apply Hfail; try discriminate.
    unfold Listener.singleRegistration. simpl. rewrite Hr.
    repeat split.
  - unfold Listener.apply, Listener.singleRegistration in *. simpl.
    destruct (notify_keeps_subscription clock payload (snd w) (fst w))
      as (Hu & Hl & _).
    rewrite Hu, Hl. exact Hw.
  - exact Hw.
  - destruct (cleanup_single w Hw) as (Hu & Hr).
    unfold Listener.apply, Listener.singleRegistration.
    rewrite Hu. exact Hr.
Qed.

Lemma run_single (ops : list Listener.Op) :
  forall w,
    forallb Listener.politeOp ops = true ->
    Listener.singleRegistration w ->
    Listener.singleRegistration (Listener.run ops w).
Proof.
  induction ops as [| op ops IH]; intros w Hops Hw.
  - exact Hw.
  - simpl in Hops. apply andb_true_iff in Hops as [Hop Hops].
    unfold Listener.run. simpl. apply IH; [exact Hops |].
    apply apply_single; assumption.
Qed.

(** X11.  As long as the unsubscribe functions of the bridges do not throw,
    the host never holds more than one callback for the component, however
    often it is initialised again: the component holds the unsubscribe
    function of exactly that callback, or none when the host has none.
    Once [cleanup] has run, a notification no longer changes the
    component. *)
Theorem at_most_one_callback (ops : list Listener.Op) :
  forallb Listener.politeOp ops = true ->
  Listener.singleRegistration
    (Listener.run ops (Listener.mount, Bridge.mkHost [] 0))
  /\ length (Bridge.registered
               (snd (Listener.run ops (Listener.mount, Bridge.mkHost [] 0))))
     <= 1
  /\ forall clock payload,
       let w := Listener.run (ops ++ [Listener.Cleanup])
                             (Listener.mount, Bridge.mkHost [] 0) in
       Bridge.registered (snd w) = []
       /\ Listener.notify clock payload (fst w) (snd w) = fst w.
Proof.
  intros Hops.
  assert (H : Listener.singleRegistration
                (Listener.run ops (Listener.mount, Bridge.mkHost [] 0))).
  { apply run_single; [exact Hops | reflexivity]. }
  split; [exact H |]. split.
  - unfold Listener.singleRegistration in H.
    destruct (Listener.pageContextUnsubscribe
                (fst (Listener.run ops (Listener.mount, Bridge.mkHost [] 0))))
      as [u |].
    + destruct H as (_ & Hr & _). rewrite Hr. simpl. lia.
    + rewrite H. simpl. lia.
  - intros clock payload. simpl.
    unfold Listener.run. rewrite fold_left_app. simpl.
    fold (Listener.run ops (Listener.mount, Bridge.mkHost [] 0)).
    destruct (cleanup_single _ H) as (_ & Hr).
    split; [exact Hr |].
    unfold Listener.notify. rewrite Hr. reflexivity.
Qed.

Lemma at_most_one_callback_witness :
  length
    (Bridge.registered
       (snd (Listener.run
               [Listener.Initialize "t1"
                  (Sample.props (Sample.bridge (Returned Sample.home)));
                Listener.Notify Sample.clock Sample.about;
                Listener.Initialize "t2"
                  (Sample.props (Sample.bridge (Returned Null)))]
               (Listener.mount, Bridge.mkHost [] 0))))
  <= 1.
Proof.
  destruct (at_most_one_callback
              [Listener.Initialize "t1"
                 (Sample.props (Sample.bridge (Returned Sample.home)));
               Listener.Notify Sample.clock Sample.about;
               Listener.Initialize "t2"
                 (Sample.props (Sample.bridge (Returned Null)))]
              eq_refl) as (_ & H & _).
  exact H.
Defined.

Lemma step_is_apply (w w' : Listener.Component * Bridge.Host unit) :
  Listener.step w w' <-> exists op, w' = Listener.apply op w.
Proof.
  split.
  - intros H. destruct H as [now props c h | clock context c h | c h | c h].
    + exists (Listener.Initialize now props). reflexivity.
    + exists (Listener.Notify clock context). reflexivity.
    + exists Listener.ClearHistory. reflexivity.
    + exists Listener.Cleanup. reflexivity.
  - intros [op ->]. destruct w as [c h]. destruct op; simpl; constructor.
Qed.

(** X13.  Initialising with a bridge that has both methods and registers the
    callback starts afresh: the resulting state does not depend on the state
    before.  The history holds nothing of the old one -- it is empty, or the
    single "Initial Load" record of a truthy initial context -- and the
    stored context is what the bridge reported ([null] when it threw). *)
Theorem initialisation_starts_afresh (now : string) (b : Bridge.t)
    (retrieve : Outcome Value) (unsubscribeThrows : option Thrown) :
  Bridge.getCurrentPageContext b = Bridge.Function retrieve ->
  Bridge.onPageContextChange b
    = Bridge.Function (Bridge.Registers unsubscribeThrows) ->
  forall c h,
    let st := Listener.state
                (fst (Listener.initializePageContextListener
                        now (Sample.props b) c h)) in
    let initial := match retrieve with
                   | Returned context => context
                   | Threw _ => Null
                   end in
    (forall c' h',
        Listener.state
          (fst (Listener.initializePageContextListener
                  now (Sample.props b) c' h')) = st)
    /\ Listener.currentContext st = initial
    /\ Listener.changeHistory st
       = (if truthy initial
          then [Listener.mkChange now Null initial "Initial Load"]
          else []).
Proof.
  intros Hget Hsub c h. simpl.
  assert (E : forall c0 h0,
             Listener.state
               (fst (Listener.initializePageContextListener
                       now (Sample.props b) c0 h0))
             = Listener.mkState true true ""
                 "✅ PageContext Listener active and monitoring changes"
                 (if truthy match retrieve with
                            | Returned context => context
                            | Threw _ => Null
                            end
                  then [Listener.mkChange now Null
                          match retrieve with
                          | Returned context => context
                          | Threw _ => Null
                          end "Initial Load"]
                  else [])
                 match retrieve with
                 | Returned context => context
                 | Threw _ => Null
                 end).
  { intros c0 h0. unfold Listener.initializePageContextListener.
    destruct (Listener.cleanup c0 h0) as [c1 h1]. simpl.
    rewrite Hsub, Hget. reflexivity. }
  split; [| split].
  - intros c' h'. rewrite !E. reflexivity.
  - rewrite E. reflexivity.
  - rewrite E. reflexivity.
Qed.

Lemma initialisation_starts_afresh_witness :
  Listener.changeHistory
    (Listener.state
       (fst (Listener.initializePageContextListener "t2"
               (Sample.props (Sample.bridge (Returned Sample.about)))
               (Listener.notify Sample.clock Sample.otherPage
                  (fst Sample.listening) (snd Sample.listening))
               (snd Sample.listening))))
  = [Listener.mkChange "t2" Null Sample.about "Initial Load"].
Proof.
  destruct (initialisation_starts_afresh "t2"
              (Sample.bridge (Returned Sample.about)) (Returned Sample.about)
              None eq_refl eq_refl
              (Listener.notify Sample.clock Sample.otherPage
                 (fst Sample.listening) (snd Sample.listening))
              (snd Sample.listening)) as (_ & _ & H).
  exact H.
Defined.

(** X15.  The change type the listener records and the one the developer
    guide lists differ in one case only (names of the labels apart): the
    previous context is truthy, [pageId] is unchanged, and both [pageName]
    and [pageRoute] changed. *)
Theorem listener_departs_from_guide_in_one_case (previous current : Value) :
  Guide.listenerLabel (Guide.determineChangeType previous current)
    <> Listener.determineChangeType previous current
  <-> truthy previous = true
      /\ strictNe (get previous "pageId") (get current "pageId") = false
      /\ strictNe (get previous "pageName") (get current "pageName") = true
      /\ strictNe (get previous "pageRoute") (get current "pageRoute") = true.
Proof.
  unfold Guide.determineChangeType, Listener.determineChangeType.
  destruct (truthy previous);
    destruct (strictNe (get previous "pageId") (get current "pageId"));
    destruct (strictNe (get previous "pageName") (get current "pageName"));
    destruct (strictNe (get previous "pageRoute") (get current "pageRoute"));
    simpl; split;
    try (intros H; exfalso; apply H; reflexivity);
    try (intros (H1 & H2 & H3 & H4); discriminate);
    try (intros _; repeat split; reflexivity);
    try (intros _; discriminate).
Qed.

Lemma listener_departs_from_guide_in_one_case_witness :
  Guide.listenerLabel
    (Guide.determineChangeType Sample.home Sample.renamedAndMoved)
  <> Listener.determineChangeType Sample.home Sample.renamedAndMoved.
Proof.
  apply (listener_departs_from_guide_in_one_case Sample.home
           Sample.renamedAndMoved).
  repeat split; reflexivity.
Defined.

Lemma strictNe_strings (a b : string) :
  strictNe (Str a) (Str b) = true <-> Str a <> Str b.
Proof.
  unfold strictNe. simpl. destruct (String.eqb_spec a b) as [E | E]; simpl.
  - subst. split; [discriminate | intros H; contradiction H; reflexivity].
  - split; [intros _ H; injection H as H; contradiction | reflexivity].
Qed.

(** X16.  For two contexts that pass [validatePageContext] the recorded
    change type is decided by which fields differ: a page navigation exactly
    when [pageId] differs; a name change exactly when [pageId] is the same
    and [pageName] differs; a route change exactly when only [pageRoute]
    differs; a context update exactly when the three fields are the same. *)
Theorem change_type_of_valid_contexts (previous current : Value) :
  Service.validatePageContext previous = true ->
  Service.validatePageContext current = true ->
  let kind := Listener.determineChangeType previous current in
  let same field := get previous field = get current field in
  (kind = "Page Navigation" <-> ~ same "pageId")
  /\ (kind = "Page Name Change" <-> same "pageId" /\ ~ same "pageName")
  /\ (kind = "Route Change"
      <-> same "pageId" /\ same "pageName" /\ ~ same "pageRoute")
  /\ (kind = "Context Update"
      <-> same "pageId" /\ same "pageName" /\ same "pageRoute").
Proof.
  intros Hp Hc.
  apply validatePageContext_accepts_string_fields in Hp
    as (r1 & f1 & i1 & n1 & p1 & -> & Hi1 & Hn1 & Hp1).
  apply validatePageContext_accepts_string_fields in Hc
    as (r2 & f2 & i2 & n2 & p2 & -> & Hi2 & Hn2 & Hp2).
  unfold Listener.determineChangeType. simpl.
  rewrite Hi1, Hn1, Hp1, Hi2, Hn2, Hp2. unfold strictNe. simpl.
  destruct (String.eqb_spec i1 i2) as [Ei | Ei];
    destruct (String.eqb_spec n1 n2) as [En | En];
    destruct (String.eqb_spec p1 p2) as [Ep | Ep];
    subst; simpl;
    (split; [| split; [| split]]);
    (split; intros H;
     [ try discriminate H; intuition congruence
     | try reflexivity; exfalso; intuition congruence ]).
Qed.

Lemma change_type_of_valid_contexts_witness :
  Listener.determineChangeType Sample.home Sample.about = "Route Change".
Proof.
  destruct (change_type_of_valid_contexts Sample.home Sample.about
              eq_refl eq_refl) as (_ & _ & H & _).
  apply H. repeat split; try reflexivity. discriminate.
Defined.

(** X17.  Clearing the history does not reset the baseline.  The next
    accepted notification is recorded alone, and it is classified against
    the context stored before the history was cleared, not as an initial
    load. *)
Theorem clearing_keeps_the_baseline (clock : Listener.Clock) (ref : nat)
    (fields : list (string * Value)) (st : Listener.State) :
  Listener.changeHistory
    (Listener.handleChange clock (Obj ref fields)
       (Listener.handleClearHistory st))
  = [Listener.mkChange (Listener.iso clock) (Listener.currentContext st)
       (Obj ref fields)
       (Listener.determineChangeType (Listener.currentContext st)
                                     (Obj ref fields))]
  /\ (truthy (Listener.currentContext st) = true ->
      Listener.determineChangeType (Listener.currentContext st)
                                   (Obj ref fields) <> "Initial Load").
Proof.
  split; [reflexivity |].
  intros Ht. unfold Listener.determineChangeType. rewrite Ht. simpl.
  destruct (strictNe _ _); [discriminate |].
  destruct (strictNe _ _); [discriminate |].
  destruct (strictNe _ _); discriminate.
Qed.

Lemma clearing_keeps_the_baseline_witness :
  Listener.determineChangeType
    (Listener.currentContext (Listener.state (fst Sample.listening)))
    Sample.about <> "Initial Load".
Proof.
  apply (clearing_keeps_the_baseline Sample.clock 3
           [("pageId", Str "x"); ("pageName", Str "Home");
            ("pageRoute", Str "/about")]
           (Listener.state (fst Sample.listening))).
  reflexivity.
Defined.

(* ================================================================== *)
(** ** Properties of the display component and of the rendering helpers *)
(* ================================================================== *)

Lemma prefix_append (a b : string) : String.prefix a (a ++ b) = true.
Proof.
  induction a as [| ch a IH]; simpl.
  - destruct b; reflexivity.
  - destruct (Ascii.ascii_dec ch ch) as [_ | N]; [exact IH | contradiction].
Qed.

Lemma includes_prefix (needle rest : string) :
  includes needle (needle ++ rest) = true.
Proof.
  assert (U : forall s, includes needle s
                        = if String.prefix needle s then true
                          else match s with
                               | EmptyString => false
                               | String _ s' => includes needle s'
                               end)
    by (intros s; destruct s; reflexivity).
  rewrite U, prefix_append. reflexivity.
Qed.

(** X18.  A failure is always shown as an error.  Whatever was thrown, the
    status both components set when their initialisation fails is classified
    "status-error"; and whenever [handleRefresh] leaves an error message,
    the status it leaves is classified "status-error" too. *)
Theorem failures_show_as_errors :
  (forall e c,
      Listener.getStatusType
        (Listener.status (Listener.state (Listener.initializationFailed e c)))
      = "status-error")
  /\ (forall e c,
        Display.getStatusType
          (Display.status (Display.state (Display.initializationFailed e c)))
        = "status-error")
  /\ (forall render props st,
        Display.error (Display.handleRefresh render props st) <> "" ->
        Display.getStatusType
          (Display.status (Display.handleRefresh render props st))
        = "status-error").
Proof.
  assert (L : forall m, Listener.getStatusType ("❌ " ++ m) = "status-error").
  { intros m. unfold Listener.getStatusType.
    change ("❌ " ++ m) with ("❌" ++ (" " ++ m)).
    rewrite includes_prefix. reflexivity. }
  assert (D : forall m, Display.getStatusType ("❌ " ++ m) = "status-error").
  { intros m. unfold Display.getStatusType.
    change ("❌ " ++ m) with ("❌" ++ (" " ++ m)).
    rewrite includes_prefix. reflexivity. }
  split; [| split].
  - intros e c. apply L.
  - intros e c. apply D.
  - intros render props st. unfold Display.handleRefresh.
    destruct (Display.isServiceConnected st); simpl; [| intros _; apply D].
    destruct (match Listener.services props with
              | Some sv => Listener.pageContext sv
              | None => None
              end) as [b |]; [| intros _; apply D].
    destruct (Bridge.getCurrentPageContext b) as [| [cc | e]];
      try (intros _; apply D).
    destruct (truthy cc && String.eqb (typeof cc) "object").
    + destruct (template render _) as [name | e]; simpl.
      * intros H. contradiction H. reflexivity.
      * intros _. apply D.
    + simpl. intros H. contradiction H. reflexivity.
Qed.

Lemma failures_show_as_errors_witness :
  Display.getStatusType
    (Display.status
       (Display.handleRefresh (fun _ => Returned "") Sample.noBridge
          Display.initialState))
  = "status-error".
Proof.
  destruct failures_show_as_errors as (_ & _ & H).
  apply H. discriminate.
Defined.



(** X20.  The two components check the methods of the bridge in opposite
    order.  The display component reports a missing [getCurrentPageContext]
    whatever else is missing, and a missing [onPageContextChange] only when
    [getCurrentPageContext] is there; for a bridge with neither method the
    listener component reports [onPageContextChange]. *)
Theorem display_checks_retrieve_first (b : Bridge.t) (c : Display.Component)
    (h : Bridge.Host unit) :
  let st := Display.state
              (fst (Display.initializePageContextService
                      (Sample.props b) c h)) in
  (Bridge.getCurrentPageContext b = Bridge.NotAFunction ->
   Display.error st
     = "PageContext Service missing getCurrentPageContext method"
   /\ Display.isServiceConnected st = false
   /\ (Bridge.onPageContextChange b = Bridge.NotAFunction ->
       forall now lc lh,
         Listener.error
           (Listener.state
              (fst (Listener.initializePageContextListener
                      now (Sample.props b) lc lh)))
         = "PageContext Service missing onPageContextChange method"))
  /\ (forall retrieve,
        Bridge.getCurrentPageContext b = Bridge.Function retrieve ->
        Bridge.onPageContextChange b = Bridge.NotAFunction ->
        Display.error st
          = "PageContext Service missing onPageContextChange method"
        /\ Display.isServiceConnected st = false).
Proof.
  simpl. unfold Display.initializePageContextService.
  destruct (Display.cleanup c h) as [c1 h1]. simpl. split.
  - intros Hget. rewrite Hget. simpl. repeat split.
    intros Hsub now lc lh. unfold Listener.initializePageContextListener.
    destruct (Listener.cleanup lc lh) as [lc1 lh1]. simpl.
    rewrite Hsub. reflexivity.
  - intros retrieve Hget Hsub. rewrite Hget, Hsub.
    destruct retrieve; split; reflexivity.
Qed.

Lemma display_checks_retrieve_first_witness :
  Display.error
    (Display.state
       (fst (Display.initializePageContextService
               (Sample.props (Bridge.mk Bridge.NotAFunction Bridge.NotAFunction))
               Display.mount (Bridge.mkHost [] 0))))
  = "PageContext Service missing getCurrentPageContext method"
  /\ Listener.error
       (Listener.state
          (fst (Listener.initializePageContextListener "now"
                  (Sample.props (Bridge.mk Bridge.NotAFunction
                                           Bridge.NotAFunction))
                  Listener.mount (Bridge.mkHost [] 0))))
     = "PageContext Service missing onPageContextChange method".
Proof.
  destruct (display_checks_retrieve_first
              (Bridge.mk Bridge.NotAFunction Bridge.NotAFunction)
              Display.mount (Bridge.mkHost [] 0)) as (H & _).
  destruct (H eq_refl) as (E & _ & L).
  split; [exact E | apply (L eq_refl)].
Defined.

Lemma orElse_shown (v : Value) : Display.shown (orElse v (Str "")).
Proof.
  unfold Display.shown, orElse. destruct (truthy v) eqn:E; auto.
Qed.

Lemma display_cleanup_state (c : Display.Component) (h : Bridge.Host unit) :
  Display.state (fst (Display.cleanup c h)) = Display.state c.
Proof.
  unfold Display.cleanup.
  destruct (Display.pageContextUnsubscribe c) as [u |]; [| reflexivity].
  unfold Bridge.unsubscribe. destruct (Bridge.throws u); reflexivity.
Qed.

Lemma display_handleChange_presentable (render : Value -> Outcome string)
    (payload : Value) (st : Display.State) :
  Display.presentable st ->
  Display.presentable (Display.handleChange render payload st).
Proof.
  intros H. unfold Display.handleChange.
  destruct (negb (truthy payload)
            || negb (String.eqb (typeof payload) "object")); [exact H |].
  destruct (template render _) as [name | e].
  - repeat split; apply orElse_shown.
  - exact H.
Qed.

Lemma display_apply_presentable (op : Display.Op)
    (w : Display.Component * Bridge.Host unit) :
  Display.presentable (Display.state (fst w)) ->
  Display.presentable (Display.state (fst (Display.apply op w))).
Proof.
  intros H. destruct w as [c h].
  destruct op as [props | render payload | render props |]; simpl in *.
  - rewrite <- (display_cleanup_state c h) in H.
    unfold Display.initializePageContextService.
    destruct (Display.cleanup c h) as [c1 h1]. simpl in H.
    destruct props as [[[[b |]] |]]; simpl; try exact H.
    destruct (Bridge.getCurrentPageContext b) as [| [cc | e]];
      destruct (Bridge.onPageContextChange b) as [| [e' | ut]];
      simpl; try exact H.
    destruct (truthy cc); simpl; [| exact H].
    repeat split; apply orElse_shown.
  - unfold Display.notify. revert c H.
    induction (Bridge.registered h) as [| r rs IH]; intros c H; simpl.
    + exact H.
    + apply IH. simpl. apply display_handleChange_presentable. exact H.
  - unfold Display.handleRefresh.
    destruct (Display.isServiceConnected (Display.state c)); simpl;
      [| exact H].
    destruct (match Listener.services props with
              | Some sv => Listener.pageContext sv
              | None => None
              end) as [b |]; [| exact H].
    destruct (Bridge.getCurrentPageContext b) as [| [cc | e]]; try exact H.
    destruct (truthy cc && String.eqb (typeof cc) "object"); [| exact H].
    destruct (template render _) as [name | e]; [| exact H].
    repeat split; apply orElse_shown.
  - rewrite display_cleanup_state. exact H.
Qed.

(** X21.  Whatever the host sends, however it renders and whatever the
    order of initialisations, notifications, refreshes and clean-ups, each of
    the three page fields of the display component holds a truthy value or
    the empty string: a missing, null or otherwise falsy field of a context
    is never stored. *)
Theorem display_fields_are_presentable (ops : list Display.Op) :
  Display.presentable
    (Display.state
       (fst (Display.run ops (Display.mount, Bridge.mkHost [] 0)))).
Proof.
  unfold Display.run.
  assert (G : forall w,
             Display.presentable (Display.state (fst w)) ->
             Display.presentable
               (Display.state
                  (fst (fold_left (fun acc op => Display.apply op acc) ops w)))).
  { induction ops as [| op ops IH]; intros w H; simpl.
    - exact H.
    - apply IH. apply display_apply_presentable. exact H. }
  apply G. repeat split; right; reflexivity.
Qed.

(** X22.  [handleRefresh] never changes the connection flag, not even when
    the bridge has gone or throws.  It replaces the page fields only when
    the component is connected and the bridge returns an object, and then
    by that object's fields with the empty string for falsy ones; in every
    other case the fields shown before stay. *)
Theorem refresh_keeps_connection_and_stale_fields
    (render : Value -> Outcome string) (props : Listener.Props)
    (st : Display.State) :
  let st' := Display.handleRefresh render props st in
  Display.isServiceConnected st' = Display.isServiceConnected st
  /\ ((Display.pageId st' = Display.pageId st
       /\ Display.pageName st' = Display.pageName st
       /\ Display.pageRoute st' = Display.pageRoute st)
      \/ exists sv b ref fields,
           Display.isServiceConnected st = true
           /\ Listener.services props = Some sv
           /\ Listener.pageContext sv = Some b
           /\ Bridge.getCurrentPageContext b
              = Bridge.Function (Returned (Obj ref fields))
           /\ Display.error st' = ""
           /\ Display.pageId st' = orElse (lookup "pageId" fields) (Str "")
           /\ Display.pageName st' = orElse (lookup "pageName" fields) (Str "")
           /\ Display.pageRoute st'
              = orElse (lookup "pageRoute" fields) (Str "")).
Proof.
  simpl. unfold Display.handleRefresh.
  destruct (Display.isServiceConnected st) eqn:Hc; simpl; [| auto].
  destruct (Listener.services props) as [sv |] eqn:Hs; [| auto].
  destruct (Listener.pageContext sv) as [b |] eqn:Hp; [| auto].
  destruct (Bridge.getCurrentPageContext b) as [| [cc | e]] eqn:Hg;
    try (simpl; auto).
  destruct (truthy cc) eqn:Ht; simpl; [| auto].
  destruct (String.eqb_spec (typeof cc) "object") as [Ho | Ho]; [| auto].
  destruct (object_inversion cc Ht Ho) as (ref & fields & ->).
  destruct (template render _) as [name | e]; simpl; [| auto].
  split; [reflexivity |]. right.
  exists sv, b, ref, fields. repeat split; auto.
Qed.

(** X23.  [formatContextForDisplay] of an object whose [pageName] and
    [pageId] are strings is "name (id)", with "Unknown" for an empty name
    and "No ID" for an empty id, however the engine renders other values; a
    falsy context is shown as "None". *)
Theorem format_of_string_fields (render : Value -> Outcome string)
    (ref : nat) (fields : list (string * Value)) (name id : string) :
  lookup "pageName" fields = Str name ->
  lookup "pageId" fields = Str id ->
  Listener.formatContextForDisplay render (Obj ref fields)
  = (if String.eqb name "" then "Unknown" else name)
      ++ " (" ++ (if String.eqb id "" then "No ID" else id) ++ ")"
  /\ forall context,
       truthy context = false ->
       Listener.formatContextForDisplay render context = "None".
Proof.
  intros Hname Hid. split.
  - unfold Listener.formatContextForDisplay, orElse. simpl.
    rewrite Hname, Hid. simpl.
    destruct (String.eqb name ""); destruct (String.eqb id ""); reflexivity.
  - intros context Ht. unfold Listener.formatContextForDisplay.
    rewrite Ht. reflexivity.
Qed.

Lemma format_of_string_fields_witness :
  Listener.formatContextForDisplay (fun _ => Threw (Error "no rendering"))
    Sample.emptyId
  = "Home (No ID)".
Proof.
  destruct (format_of_string_fields (fun _ => Threw (Error "no rendering")) 5
              [("pageId", Str ""); ("pageName", Str "Home");
               ("pageRoute", Str "/")] "Home" "" eq_refl eq_refl)
    as (H & _).
  exact H.
Defined.

(* ================================================================== *)
(** ** The listener's history when state updates are batched *)
(* ================================================================== *)

Lemma wellFormed_sound (st : Listener.State) :
  Listener.wellFormed st -> Batched.sound st.
Proof. intros (_ & Hall & Hhead). split; assumption. Qed.

Lemma applyUpdate_sound (u : Batched.Update) (st : Listener.State) :
  Listener.consistent (Batched.record u) ->
  Batched.sound st -> Batched.sound (Batched.applyUpdate u st).
Proof.
  intros Hu (Hall & _). unfold Batched.sound, Batched.applyUpdate,
    Listener.pushChange.
  cbn [Listener.changeHistory Listener.currentContext]. split.
  - constructor; [exact Hu | apply Forall_firstn_kept; exact Hall].
  - reflexivity.
Qed.

Lemma onChange_queue (clock : Listener.Clock) (context : Value)
    (c : Batched.Component) :
  Forall (fun u => Listener.consistent (Batched.record u)) (Batched.queued c) ->
  Batched.rendered (Batched.onChange clock context c) = Batched.rendered c
  /\ Forall (fun u => Listener.consistent (Batched.record u))
            (Batched.queued (Batched.onChange clock context c)).
Proof.
  intros H. unfold Batched.onChange.
  destruct (truthy context) eqn:Ht; simpl; [| split; [reflexivity | exact H]].
  destruct (String.eqb (typeof context) "object"); simpl;
    [| split; [reflexivity | exact H]].
  split; [reflexivity |]. apply Forall_app. split; [exact H |].
  constructor; [| constructor]. split; [reflexivity | exact Ht].
Qed.

Lemma flush_sound (c : Batched.Component) :
  Forall (fun u => Listener.consistent (Batched.record u)) (Batched.queued c) ->
  Batched.sound (Batched.rendered c) -> Batched.sound (Batched.flush c).
Proof.
  unfold Batched.flush. destruct c as [st queue]. simpl. revert st.
  induction queue as [| u queue IH]; intros st Hq Hst; simpl.
  - exact Hst.
  - inversion Hq; subst. apply IH; [assumption |].
    apply applyUpdate_sound; assumption.
Qed.

Lemma tick_sound (ns : list (Listener.Clock * Value)) (st : Listener.State) :
  Batched.sound st -> Batched.sound (Batched.tick ns st).
Proof.
  intros Hst. unfold Batched.tick.
  assert (G : forall c,
             Forall (fun u => Listener.consistent (Batched.record u))
                    (Batched.queued c) ->
             Batched.sound (Batched.rendered c) ->
             Batched.sound
               (Batched.flush
                  (fold_left
                     (fun c n => Batched.onChange (fst n) (snd n) c) ns c))).
  { induction ns as [| n ns IH]; intros c Hq Hc; simpl.
    - apply flush_sound; assumption.
    - destruct (onChange_queue (fst n) (snd n) c Hq) as (Hr & Hq').
      apply IH; [exact Hq' | rewrite Hr; exact Hc]. }
  apply G; [constructor | exact Hst].
Qed.

Lemma tick_of_one (n : Listener.Clock * Value) (st : Listener.State) :
  Batched.tick [n] st = Listener.handleChange (fst n) (snd n) st.
Proof.
  unfold Batched.tick, Batched.onChange, Batched.flush,
    Listener.handleChange. simpl.
  destruct (negb (truthy (snd n))
            || negb (String.eqb (typeof (snd n)) "object")); reflexivity.
Qed.

Lemma initialize_sound (now : string) (props : Listener.Props)
    (c : Listener.Component) (h : Bridge.Host unit) :
  Batched.sound (Listener.state c) ->
  Batched.sound
    (Listener.state
       (fst (Listener.initializePageContextListener now props c h))).
Proof.
  intros H. rewrite <- (cleanup_state c h) in H.
  unfold Listener.initializePageContextListener.
  destruct (Listener.cleanup c h) as [c1 h1]. simpl in H.
  assert (Hempty : forall a b e s v,
             Batched.sound (Listener.mkState a b e s [] v)).
  { intros. split; [constructor | exact I]. }
  destruct (Listener.services props) as [[[b |]] |]; simpl;
    try exact H; try apply Hempty.
  destruct (Bridge.onPageContextChange b) as [| sub]; simpl; try exact H.
  destruct (Bridge.getCurrentPageContext b) as [| retrieve]; simpl;
    try exact H.
  destruct sub as [e | ut]; simpl; try exact H.
  destruct retrieve as [context | e]; simpl; try apply Hempty.
  destruct (truthy context) eqn:Ht; try apply Hempty.
  split; [| reflexivity]. constructor; [| constructor].
  split; [reflexivity | exact Ht].
Qed.

Lemma notify_sound (clock : Listener.Clock) (payload : Value)
    (h : Bridge.Host unit) (c : Listener.Component) :
  Batched.sound (Listener.state c) ->
  Batched.sound (Listener.state (Listener.notify clock payload c h)).
Proof.
  unfold Listener.notify. revert c.
  induction (Bridge.registered h) as [| r rs IH]; intros c H; simpl.
  - exact H.
  - apply IH. simpl.
    rewrite <- (tick_of_one (clock, payload)). apply tick_sound. exact H.
Qed.

(** X10.  However React batches the updates of the change callback, every
    record of the history carries the change type its two contexts
    determine and ends on a truthy context, and the newest record ends on
    the stored current context: this holds when the component is mounted
    and is kept by initialisation, by a notification, by clearing, by
    clean-up and by any batches of notifications applied together.  When
    every update is applied before the next callback runs, the records
    moreover form a chain, each starting from the context the record before
    it ended on. *)
Theorem history_records_are_sound :
  Batched.sound Listener.initialState
  /\ (forall w w',
        Listener.step w w' ->
        Batched.sound (Listener.state (fst w)) ->
        Batched.sound (Listener.state (fst w')))
  /\ (forall batches st,
        Batched.sound st -> Batched.sound (Batched.ticks batches st))
  /\ (forall batches st,
        Forall (fun ns => length ns <= 1) batches ->
        Listener.wellFormed st ->
        Listener.wellFormed (Batched.ticks batches st)).
Proof.
  split; [| split; [| split]].
  - split; [constructor | exact I].
  - intros w w' Hstep H.
    destruct Hstep as [now props c h | clock context c h | c h | c h];
      simpl in H.
    + apply initialize_sound. exact H.
    + simpl. apply notify_sound. exact H.
    + simpl. split; [constructor | exact I].
    + rewrite cleanup_state. exact H.
  - intros batches. unfold Batched.ticks.
    induction batches as [| ns batches IH]; intros st Hst; simpl.
    + exact Hst.
    + apply IH. apply tick_sound. exact Hst.
  - intros batches. unfold Batched.ticks.
    induction batches as [| ns batches IH]; intros st Hall Hst; simpl.
    + exact Hst.
    + inversion Hall as [| ns' batches' Hlen Hrest]; subst.
      apply IH; [exact Hrest |].
      destruct ns as [| n [| n' ns]].
      * exact Hst.
      * rewrite tick_of_one. apply handleChange_wellFormed. exact Hst.
      * simpl in Hlen. lia.
Qed.

Lemma history_records_are_sound_witness :
  Batched.sound
    (Batched.ticks
       [[(Sample.clock, Sample.about); (Sample.clock, Sample.otherPage)];
        [(Sample.clock, Sample.renamedAndMoved)]]
       (Listener.state (fst Sample.listening)))
  /\ Listener.wellFormed
       (Batched.ticks
          [[(Sample.clock, Sample.about)]; [];
           [(Sample.clock, Sample.otherPage)]]
          (Listener.state (fst Sample.listening))).
Proof.
  destruct history_records_are_sound as (Hmount & Hstep & Hbatch & Hchain).
  assert (W : Listener.wellFormed (Listener.state (fst Sample.listening))).
  { repeat split; repeat constructor. }
  split.
  - apply Hbatch.
    apply (Hstep (Listener.mount, Bridge.mkHost [] 0) Sample.listening).
    + apply Listener.step_initialize.
    + exact Hmount.
  - apply Hchain; [| exact W].
    repeat constructor.
Defined.

(** Two notifications applied together are both recorded as changes from
    the context rendered before them, so the history is no chain. *)
Lemma batched_history_is_no_chain :
  let st := Batched.tick
              [(Sample.clock, Sample.about); (Sample.clock, Sample.otherPage)]
              (Listener.state (fst Sample.listening)) in
  map Listener.previousContext (Listener.changeHistory st)
    = [Sample.home; Sample.home; Null]
  /\ map Listener.newContext (Listener.changeHistory st)
     = [Sample.otherPage; Sample.about; Sample.home]
  /\ ~ Listener.chained (Listener.changeHistory st).
Proof.
  simpl. repeat split. intros (H & _). discriminate H.
Qed.

(** X12.  An unsubscribe function that throws leaks its callback.  When the
    component holding it is initialised again with a bridge that registers,
    the old callback stays with the host beside the new one, and one
    notification is then recorded twice.  With the updates applied
    together, both records go from the context stored before to the
    payload; with each update applied at once, the second record goes from
    the payload to the payload itself. *)
Theorem throwing_unsubscribe_doubles_records (now : string) (b : Bridge.t)
    (retrieve : Outcome Value) (unsubscribeThrows : option Thrown)
    (c : Listener.Component) (h : Bridge.Host unit) (u : Bridge.Unsubscribe)
    (e : Thrown) :
  Listener.pageContextUnsubscribe c = Some u ->
  Bridge.throws u = Some e ->
  Bridge.registered h = [(Bridge.registration u, tt)] ->
  Bridge.getCurrentPageContext b = Bridge.Function retrieve ->
  Bridge.onPageContextChange b
    = Bridge.Function (Bridge.Registers unsubscribeThrows) ->
  let w := Listener.initializePageContextListener now (Sample.props b) c h in
  let before := Listener.state (fst w) in
  Bridge.registered (snd w)
    = [(Bridge.registration u, tt); (Bridge.nextRegistration h, tt)]
  /\ forall clock ref fields,
       let payload := Obj ref fields in
       let fromBefore :=
         Listener.mkChange (Listener.iso clock)
           (Listener.currentContext before) payload
           (Listener.determineChangeType (Listener.currentContext before)
                                         payload) in
       Listener.changeHistory (Batched.notify clock payload before (snd w))
       = (fromBefore :: fromBefore :: Listener.changeHistory before)%list
       /\ Listener.changeHistory
            (Listener.state (Listener.notify clock payload (fst w) (snd w)))
          = (Listener.mkChange (Listener.iso clock) payload payload
               (Listener.determineChangeType payload payload)
               :: fromBefore :: Listener.changeHistory before)%list.
Proof.
  intros Hu Hthrows Hreg Hget Hsub.
  unfold Listener.initializePageContextListener, Listener.cleanup,
    Bridge.unsubscribe.
  rewrite Hu, Hthrows. simpl. rewrite Hsub, Hget. simpl. rewrite Hreg. simpl.
  split; [reflexivity |].
  intros clock ref fields.
  unfold Batched.notify, Batched.tick, Batched.flush, Batched.onChange,
    Batched.applyUpdate, Listener.notify, Listener.pushChange.
  simpl.
  destruct retrieve as [context | e']; simpl;
    [destruct (truthy context); simpl |]; split; reflexivity.
Qed.

Lemma throwing_unsubscribe_doubles_records_witness :
  let w := Listener.initializePageContextListener "t2"
             (Sample.props (Sample.bridge (Returned Sample.home)))
             (Listener.mkComponent Listener.initialState
                (Some (Bridge.mkUnsubscribe 0 (Some (Error "gone")))))
             (Bridge.mkHost [(0, tt)] 1) in
  Bridge.registered (snd w) = [(0, tt); (1, tt)]
  /\ map Listener.previousContext
       (Listener.changeHistory
          (Batched.notify Sample.clock Sample.about
             (Listener.state (fst w)) (snd w)))
     = [Sample.home; Sample.home; Null]
  /\ map Listener.previousContext
       (Listener.changeHistory
          (Listener.state
             (Listener.notify Sample.clock Sample.about (fst w) (snd w))))
     = [Sample.about; Sample.home; Null].
Proof.
  destruct (throwing_unsubscribe_doubles_records "t2"
              (Sample.bridge (Returned Sample.home)) (Returned Sample.home)
              None
              (Listener.mkComponent Listener.initialState
                 (Some (Bridge.mkUnsubscribe 0 (Some (Error "gone")))))
              (Bridge.mkHost [(0, tt)] 1)
              (Bridge.mkUnsubscribe 0 (Some (Error "gone"))) (Error "gone")
              eq_refl eq_refl eq_refl eq_refl eq_refl) as (Hreg & Hrec).
  split; [exact Hreg |].
  destruct (Hrec Sample.clock 3
              [("pageId", Str "x"); ("pageName", Str "Home");
               ("pageRoute", Str "/about")]) as (Hb & Hs).
  split.
  - apply (f_equal (map Listener.previousContext)) in Hb. exact Hb.
  - apply (f_equal (map Listener.previousContext)) in Hs. exact Hs.
Defined.

Lemma ticks_keep_flags (batches : list (list (Listener.Clock * Value)))
    (st : Listener.State) :
  Listener.isServiceConnected (Batched.ticks batches st)
    = Listener.isServiceConnected st
  /\ Listener.isListening (Batched.ticks batches st)
     = Listener.isListening st.
Proof.
  assert (F : forall queue st0,
             Listener.isServiceConnected
               (fold_left (fun s u => Batched.applyUpdate u s) queue st0)
             = Listener.isServiceConnected st0
             /\ Listener.isListening
                  (fold_left (fun s u => Batched.applyUpdate u s) queue st0)
                = Listener.isListening st0).
  { induction queue as [| u queue IH]; intros st0; simpl.
    - split; reflexivity.
    - destruct (IH (Batched.applyUpdate u st0)) as (H1 & H2).
      rewrite H1, H2. split; reflexivity. }
  assert (R : forall ns c,
             Batched.rendered
               (fold_left (fun c n => Batched.onChange (fst n) (snd n) c) ns c)
             = Batched.rendered c).
  { induction ns as [| n ns IH]; intros c; simpl; [reflexivity |].
    rewrite IH. unfold Batched.onChange.
    destruct (negb (truthy (snd n))
              || negb (String.eqb (typeof (snd n)) "object")); reflexivity. }
  unfold Batched.ticks. revert st.
  induction batches as [| ns batches IH]; intros st; simpl.
  - split; reflexivity.
  - destruct (IH (Batched.tick ns st)) as (H1 & H2). rewrite H1, H2.
    unfold Batched.tick, Batched.flush.
    destruct (F (Batched.queued
                   (fold_left
                      (fun c n => Batched.onChange (fst n) (snd n) c) ns
                      (Batched.mkComponent st [])))
                (Batched.rendered
                   (fold_left
                      (fun c n => Batched.onChange (fst n) (snd n) c) ns
                      (Batched.mkComponent st [])))) as (F1 & F2).
    rewrite F1, F2, R. split; reflexivity.
Qed.

(** X14.  The listener component is never connected without listening: the
    two flags are equal in every state it reaches.  Only initialisation
    writes them; the updates of the change callback, applied one by one or
    batched, leave both as they are. *)
Theorem connected_means_listening :
  (forall w, Listener.reachable w ->
     Listener.isServiceConnected (Listener.state (fst w))
     = Listener.isListening (Listener.state (fst w)))
  /\ (forall batches st,
        Listener.isServiceConnected (Batched.ticks batches st)
          = Listener.isServiceConnected st
        /\ Listener.isListening (Batched.ticks batches st)
           = Listener.isListening st).
Proof.
  split; [| apply ticks_keep_flags].
  intros w Hw. induction Hw as [| w w' Hw IH Hstep].
  - reflexivity.
  - destruct Hstep as [now props c h | clock context c h | c h | c h];
      simpl in IH.
    + clear IH. unfold Listener.initializePageContextListener.
      destruct (Listener.cleanup c h) as [c1 h1].
      destruct props as [[[[b |]] |]]; simpl; try reflexivity.
      destruct (Bridge.onPageContextChange b) as [| sub]; simpl;
        try reflexivity.
      destruct (Bridge.getCurrentPageContext b) as [| retrieve]; simpl;
        try reflexivity.
      destruct sub as [e | ut]; reflexivity.
    + simpl.
      destruct (notify_keeps_subscription clock context h c)
        as (_ & Hl & Hc & _).
      rewrite Hl, Hc. exact IH.
    + simpl. exact IH.
    + rewrite cleanup_state. exact IH.
Qed.

Lemma connected_means_listening_witness :
  Listener.isServiceConnected (Listener.state (fst Sample.listening))
  = Listener.isListening (Listener.state (fst Sample.listening)).
Proof.
  destruct connected_means_listening as (H & _).
  apply (H Sample.listening).
  apply (Listener.reachable_step (Listener.mount, Bridge.mkHost [] 0)).
  - apply Listener.reachable_mount.
  - apply Listener.step_initialize.
Defined.
